(** * llemur: the code summarizer of [src/llemur/summarize.py]

    A shallow embedding of the two stages of the summarizer and of the
    public operation that chains them:

    - the Lexical Reducer, [tokenize_code] (the loop over the token
      stream that drops comments and docstrings and rebuilds the spacing
      between the tokens it keeps);
    - the Structural Summarizer, [summarize_code_with_ast] with the
      [CodeSummarizer] node visitor;
    - [compress_code] and [summarize_file], with their exception handlers.

    Python's [tokenize.generate_tokens], [ast.parse] and [open] belong to
    the host, not to this repository: they are variables of the section
    that defines the pipeline, and the token stream and the syntax tree
    are the data they hand over.  So are the limits of the interpreter
    (recursion depth, digits of an int given to [str]) that can stop
    the visitor on a tree. *)

From Stdlib Require Import ZArith List String Ascii Bool Lia.
From Stdlib Require Import Numbers.DecimalString Numbers.DecimalPos Numbers.DecimalZ.
Import ListNotations.

Set Warnings "-register-all".

Open Scope string_scope.
Open Scope Z_scope.

(** ** Python strings *)

Module PyStr.

(** [sep.join(parts)]. *)
Definition join (sep : string) (parts : list string) : string :=
  String.concat sep parts.

(** [s * n] for a Python int [n]: empty when [n <= 0]. *)
Fixpoint repeat (s : string) (n : nat) : string :=
  match n with
  | O => ""
  | S n' => s ++ repeat s n'
  end.

Definition mul (s : string) (n : Z) : string := repeat s (Z.to_nat n).

(** The truth value of a string in a condition: non-empty. *)
Definition truthy (s : string) : bool :=
  match s with
  | EmptyString => false
  | String _ _ => true
  end.

Definition newline : ascii := "010"%char.
Definition tab : ascii := "009"%char.
Definition space : ascii := " "%char.

(** One-character strings for the layout characters. *)
Definition nl : string := String newline "".
Definition ht : string := String tab "".

(** [str(n)] for an int. *)
Definition of_int (n : Z) : string := NilZero.string_of_int (Z.to_int n).

End PyStr.

(** [xs.append(x)] on a Python list. *)
Definition append {A : Type} (xs : list A) (x : A) : list A := (xs ++ [x])%list.

(** ** Tokens

    The kinds of [tokenize]'s tokens that the reducer can meet.  The
    reducer compares kinds with [COMMENT], [STRING] and [INDENT] only. *)

Inductive toktype : Set :=
| ENDMARKER | NAME | NUMBER | STRING | NEWLINE | INDENT | DEDENT | OP
| COMMENT | NL | ERRORTOKEN | FSTRING_START | FSTRING_MIDDLE | FSTRING_END.

Scheme Equality for toktype.

(** A token as the loop destructures it:
    [tok_type, tok_string, (srow, scol), (erow, ecol), _].  The fifth
    component (the physical line) is ignored by the source and left out. *)
Record token : Set := TokenInfo {
  tok_type : toktype;
  tok_string : string;
  srow : Z;
  scol : Z;
  erow : Z;
  ecol : Z
}.

(** ** The Lexical Reducer: [tokenize_code] *)

Module Reducer.

(** The variables the loop of [tokenize_code] updates. *)
Record state : Set := State {
  output : list string;
  prev_toktype : toktype;
  last_lineno : Z;
  last_col : Z
}.

(** [output = []; prev_toktype = tokenize.INDENT; last_lineno = -1;
    last_col = 0]. *)
Definition initial : state :=
  {| output := []; prev_toktype := INDENT; last_lineno := -1; last_col := 0 |}.

(** [tok_type == tokenize.COMMENT] *)
Definition is_comment (t : token) : bool :=
  toktype_beq (tok_type t) COMMENT.

(** [tok_type == tokenize.STRING and prev_toktype == tokenize.INDENT] *)
Definition is_docstring (prev : toktype) (t : token) : bool :=
  toktype_beq (tok_type t) STRING && toktype_beq prev INDENT.

(** One turn of the [for] loop.  Both [continue]s leave every variable
    as it was: [prev_toktype] is assigned only on the path that appends
    the token. *)
Definition loop_body (st : state) (t : token) : state :=
  if is_comment t then st
  else if is_docstring (prev_toktype st) t then st
  else
    let last_col' := if srow t >? last_lineno st then 0 else last_col st in
    let output' :=
      if scol t >? last_col'
      then append (output st) (PyStr.mul " " (scol t - last_col'))
      else output st in
    {| output := append output' (tok_string t);
       prev_toktype := tok_type t;
       last_lineno := erow t;
       last_col := ecol t |}.

Definition run (st : state) (toks : list token) : state :=
  fold_left loop_body toks st.

(** The two [continue] tests together. *)
Definition skips (st : state) (t : token) : bool :=
  is_comment t || is_docstring (prev_toktype st) t.

(** The spacing the loop appends before a token it keeps: nothing, or
    one run of spaces. *)
Definition gap (st : state) (t : token) : list string :=
  let last_col' := if srow t >? last_lineno st then 0 else last_col st in
  if scol t >? last_col' then [PyStr.mul " " (scol t - last_col')] else [].

(** The loop from the initial variables, then [return "".join(output)]. *)
Definition tokenize_tokens (toks : list token) : string :=
  PyStr.join "" (output (run initial toks)).

(** Which tokens the loop skips, read off the two [continue] tests: the
    tracker threaded through is the kind of the last token that was not
    skipped. *)
Fixpoint skipped (prev : toktype) (toks : list token) : list bool :=
  match toks with
  | [] => []
  | t :: rest =>
      if is_comment t || is_docstring prev t
      then true :: skipped prev rest
      else false :: skipped (tok_type t) rest
  end.

Fixpoint select {A : Type} (flags : list bool) (xs : list A) : list A :=
  match flags, xs with
  | b :: flags', x :: xs' =>
      if b then x :: select flags' xs' else select flags' xs'
  | _, _ => []
  end.


Definition kept_tokens (toks : list token) : list token :=
  select (map negb (skipped INDENT toks)) toks.

(** A stream without comment tokens. *)
Definition comment_free (toks : list token) : bool :=
  forallb (fun t => negb (is_comment t)) toks.

(** A stream in which no string literal comes right after a token of
    kind indent, [before] being the kind in front of the stream. *)
Fixpoint docstring_free (before : toktype) (toks : list token) : bool :=
  match toks with
  | [] => true
  | t :: rest => negb (is_docstring before t) && docstring_free (tok_type t) rest
  end.

End Reducer.

(** ** Source positions

    The coordinates [tokenize] gives to tokens: rows count from 1,
    columns from 0 and in characters, and a newline character ends its
    row.  A source text is presented as its lexemes: each token with the
    characters that stand between the previous token and it. *)

Module Layout.

Definition pos : Set := (Z * Z)%type.

Definition origin : pos := (1, 0).

Definition advance1 (p : pos) (c : ascii) : pos :=
  if Ascii.eqb c PyStr.newline then (fst p + 1, 0) else (fst p, snd p + 1).

(** The position reached from [p] after the characters of [s]. *)
Fixpoint advance (p : pos) (s : string) : pos :=
  match s with
  | EmptyString => p
  | String c s' => advance (advance1 p c) s'
  end.

Definition pos_eqb (p q : pos) : bool :=
  (fst p =? fst q) && (snd p =? snd q).

Record lexeme : Set := Lexeme {
  lead : string;
  tok : token
}.

Definition toks (ls : list lexeme) : list token := map tok ls.

(** The text the lexemes spell. *)
Definition source_text (ls : list lexeme) : string :=
  PyStr.join "" (map (fun l => lead l ++ tok_string (tok l)) ls).

(** The end a token records agrees with the position [e] reached after
    its text: it is [e], or (the way [tokenize] ends a newline token, at
    the column after the newline character on the row it closes) it lies
    on an earlier row while [e] opens a row. *)
Definition end_ok (t : token) (e : pos) : bool :=
  pos_eqb (erow t, ecol t) e || ((erow t <? fst e) && (snd e =? 0)).

(** The tokens' coordinates are those of their texts in the source that
    the lexemes spell from position [p] on. *)
Fixpoint positioned (p : pos) (ls : list lexeme) : bool :=
  match ls with
  | [] => true
  | l :: rest =>
      let s := advance p (lead l) in
      let e := advance s (tok_string (tok l)) in
      pos_eqb (srow (tok l), scol (tok l)) s
      && end_ok (tok l) e
      && positioned e rest
  end.

Fixpoint all_chars (f : ascii -> bool) (s : string) : bool :=
  match s with
  | EmptyString => true
  | String c s' => f c && all_chars f s'
  end.

(** No newline character in [s]. *)
Definition single_line (s : string) : bool :=
  all_chars (fun c => negb (Ascii.eqb c PyStr.newline)) s.

(** Space characters only. *)
Definition blank (s : string) : bool :=
  all_chars (fun c => Ascii.eqb c PyStr.space) s.

(** Where the last token of a stream is recorded to end; before any
    token the record is row -1, column 0. *)
Definition recorded_end (toks : list token) : pos :=
  last (map (fun t => (erow t, ecol t)) toks) (-1, 0).

(** The tokens the tokenizer supplies at the end of the input (the
    newline for a last line that has none, the dedents, the end marker):
    each has no text, and is recorded on a later row than the one where
    the token before it ended, at column 0, or on that row, at or before
    the column where it ended. *)
Fixpoint closing (prev_end : pos) (ending : list token) : bool :=
  match ending with
  | [] => true
  | t :: rest =>
      String.eqb (tok_string t) ""
      && (if srow t >? fst prev_end then scol t <=? 0 else scol t <=? snd prev_end)
      && closing (erow t, ecol t) rest
  end.


End Layout.

(** ** Syntax trees

    The nodes of Python's [ast] that the summarizer tells apart, and a
    catch-all for each of expressions and statements. *)

Module Ast.

Inductive operator : Set :=
| Add | Sub | Mult | MatMult | Div | Mod | Pow
| LShift | RShift | BitOr | BitXor | BitAnd | FloorDiv.

(** The value of an [ast.Constant].  A float, complex or bytes value is
    carried by the text [str] gives for it. *)
Inductive constant : Set :=
| CNone
| CBool (b : bool)
| CInt (n : Z)
| CStr (s : string)
| CEllipsis
| CText (str_value : string).

Inductive expr : Set :=
| Name (id : string)
| Attribute (value : expr) (attr : string)
| Call (func : expr) (args : list expr) (keywords : list (option string * expr))
| Constant (value : constant)
| BinOp (left : expr) (op : operator) (right : expr)
| OtherExpr (kind : string) (parts : list expr).

(** [ast.arguments], each [ast.arg] by its name. *)
Record arguments : Set := Arguments {
  posonlyargs : list string;
  args : list string;
  vararg : option string;
  kwonlyargs : list string;
  kwarg : option string
}.

(** Statements.  [OtherStmt] stands for every other kind ([With], [Try],
    [Match], [AugAssign], [Import], ...): [blocks] lists, in field
    order, the statements found below it; the nodes between it and them
    (an except handler, a match case) are no statements and the visitor
    has no method for them. *)
Inductive stmt : Set :=
| FunctionDef (name : string) (params : arguments) (body : list stmt)
    (decorator_list : list expr)
| AsyncFunctionDef (name : string) (params : arguments) (body : list stmt)
    (decorator_list : list expr)
| ClassDef (name : string) (bases : list expr) (body : list stmt)
    (decorator_list : list expr)
| Return (value : option expr)
| Assign (targets : list expr) (value : expr)
| For (target iter : expr) (body orelse : list stmt)
| While (test : expr) (body orelse : list stmt)
| If (test : expr) (body orelse : list stmt)
| Raise (exc cause : option expr)
| Expr (value : expr)
| Pass
| OtherStmt (kind : string) (blocks : list stmt).

(** [ast.Module]: what [ast.parse] returns. *)
Record module : Set := Module_ { mod_body : list stmt }.

(** The statements one field step below a statement, in the order of the
    node's [_fields].  Expression-valued fields hold no statement (a
    lambda's body is an expression), so no [FunctionDef] or [ClassDef]
    is reached through them. *)
Definition children (node : stmt) : list stmt :=
  match node with
  | FunctionDef _ _ body _ => body
  | AsyncFunctionDef _ _ body _ => body
  | ClassDef _ _ body _ => body
  | For _ _ body orelse => body ++ orelse
  | While _ body orelse => body ++ orelse
  | If _ body orelse => body ++ orelse
  | OtherStmt _ blocks => blocks
  | Return _ | Assign _ _ | Raise _ _ | Expr _ | Pass => []
  end%list.

(** The statements of a tree in pre-order, depth first: a node, then the
    trees of its children from first to last. *)
Fixpoint preorder (node : stmt) : list stmt :=
  let forest :=
    fix forest (nodes : list stmt) : list stmt :=
      match nodes with
      | [] => []
      | n :: rest => preorder n ++ forest rest
      end%list in
  node ::
  match node with
  | FunctionDef _ _ body _ => forest body
  | AsyncFunctionDef _ _ body _ => forest body
  | ClassDef _ _ body _ => forest body
  | For _ _ body orelse => forest body ++ forest orelse
  | While _ body orelse => forest body ++ forest orelse
  | If _ body orelse => forest body ++ forest orelse
  | OtherStmt _ blocks => forest blocks
  | Return _ | Assign _ _ | Raise _ _ | Expr _ | Pass => []
  end%list.

Definition preorder_forest (nodes : list stmt) : list stmt :=
  flat_map preorder nodes.

Definition is_FunctionDef (node : stmt) : bool :=
  match node with FunctionDef _ _ _ _ => true | _ => false end.

Definition is_ClassDef (node : stmt) : bool :=
  match node with ClassDef _ _ _ _ => true | _ => false end.

Definition is_def (node : stmt) : bool :=
  is_FunctionDef node || is_ClassDef node.

(** No [FunctionDef] or [ClassDef] lies below a statement of the module
    body: the definitions of the file are all top-level. *)
Definition no_nesting (tree : module) : bool :=
  forallb (fun s => negb (existsb is_def (preorder_forest (children s))))
    (mod_body tree).

End Ast.

(** ** The Structural Summarizer: [CodeSummarizer] *)

Module Summarizer.

Import Ast.

(** [str(node.value)] *)
Definition str_constant (c : constant) : string :=
  match c with
  | CNone => "None"
  | CBool true => "True"
  | CBool false => "False"
  | CInt n => PyStr.of_int n
  | CStr s => s
  | CEllipsis => "Ellipsis"
  | CText s => s
  end.

(** [get_operator]: the dictionary lookup with its default. *)
Definition get_operator (op : operator) : string :=
  match op with
  | Add => "+"
  | Sub => "-"
  | Mult => "*"
  | Div => "/"
  | _ => "?"
  end.

(** [get_name] *)
Fixpoint get_name (node : expr) : string :=
  match node with
  | Name id => id
  | Attribute value attr => get_name value ++ "." ++ attr
  | Call func _ _ => get_name func
  | Constant value => str_constant value
  | BinOp lhs op rhs =>
      get_name lhs ++ " " ++ get_operator op ++ " " ++ get_name rhs
  | OtherExpr _ _ => "..."
  end.

(** [get_name] on a field that may hold [None] (the value of a bare
    [return]): no [isinstance] test succeeds on [None]. *)
Definition get_name_opt (node : option expr) : string :=
  match node with
  | Some e => get_name e
  | None => "..."
  end.

(** One turn of the loop of [summarize_function_body]: what the
    [if]/[elif] chain appends to [important_lines] for [stmt]. *)
Definition body_step (important_lines : list string) (s : stmt) : list string :=
  match s with
  | Assign targets value =>
      append important_lines
        (PyStr.join ", " (map get_name targets) ++ " = " ++ get_name value)
  | If test _ _ =>
      append important_lines ("if " ++ get_name test ++ ": ...")
  | For target iter _ _ =>
      append important_lines
        ("for " ++ get_name target ++ " in " ++ get_name iter ++ ": ...")
  | Expr (Call func args _) =>
      append important_lines
        (get_name func ++ "(" ++ PyStr.join ", " (map get_name args) ++ ")")
  | Return value =>
      append important_lines ("return " ++ get_name_opt value)
  | _ => important_lines
  end.

Definition important_lines_of (body : list stmt) : list string :=
  fold_left body_step body [].

(** [summarize_function_body] *)
Definition summarize_function_body (body : list stmt) : string :=
  PyStr.join " | " (important_lines_of body).

(** The entry [visit_FunctionDef] builds before it appends it. *)
Definition func_summary (name : string) (params : arguments) (body : list stmt)
  : string :=
  let func_summary := "Function: " ++ name ++ "(" ++ PyStr.join ", " (args params) ++ ")" in
  let func_body_summary := summarize_function_body body in
  if PyStr.truthy func_body_summary
  then func_summary ++ PyStr.nl ++ "  Body: " ++ func_body_summary
  else func_summary.

(** The entry [visit_ClassDef] appends. *)
Definition class_summary (name : string) : string := "Class: " ++ name.

(** [NodeVisitor.visit] on a statement, with [self.summary] passed
    through.  The dispatch finds [visit_FunctionDef] and [visit_ClassDef];
    every other node goes to [generic_visit], which visits the children. *)
Fixpoint visit (node : stmt) (summary : list string) {struct node} : list string :=
  let visit_each :=
    fix visit_each (nodes : list stmt) (summary : list string) : list string :=
      match nodes with
      | [] => summary
      | n :: rest => visit_each rest (visit n summary)
      end in
  match node with
  | FunctionDef name params body _ =>
      visit_each body (append summary (func_summary name params body))
  | ClassDef name _ body _ =>
      visit_each body (append summary (class_summary name))
  | AsyncFunctionDef _ _ body _ => visit_each body summary
  | For _ _ body orelse => visit_each orelse (visit_each body summary)
  | While _ body orelse => visit_each orelse (visit_each body summary)
  | If _ body orelse => visit_each orelse (visit_each body summary)
  | OtherStmt _ blocks => visit_each blocks summary
  | Return _ | Assign _ _ | Raise _ _ | Expr _ | Pass => summary
  end.

(** Visiting a list of nodes in order. *)
Definition visit_each (nodes : list stmt) (summary : list string) : list string :=
  fold_left (fun acc n => visit n acc) nodes summary.

(** [NodeVisitor.generic_visit] *)
Definition generic_visit (node : stmt) (summary : list string) : list string :=
  visit_each (children node) summary.

(** [visit_FunctionDef] *)
Definition visit_FunctionDef (name : string) (params : arguments)
  (body : list stmt) (decorator_list : list expr) (summary : list string)
  : list string :=
  generic_visit (FunctionDef name params body decorator_list)
    (append summary (func_summary name params body)).

(** [visit_ClassDef] *)
Definition visit_ClassDef (name : string) (bases : list expr)
  (body : list stmt) (decorator_list : list expr) (summary : list string)
  : list string :=
  generic_visit (ClassDef name bases body decorator_list)
    (append summary (class_summary name)).

(** [summarizer.visit(tree)] on the module node, from [self.summary = []]:
    a module has no visitor method, so its body is visited in order. *)
Definition visit_Module (tree : module) : list string :=
  visit_each (mod_body tree) [].

(** [get_summary] *)
Definition get_summary (summary : list string) : string :=
  PyStr.join PyStr.nl summary.

(** What a node itself adds to the summary. *)
Definition own_entry (node : stmt) : list string :=
  match node with
  | FunctionDef name params body _ => [func_summary name params body]
  | ClassDef name _ _ _ => [class_summary name]
  | _ => []
  end.

(** The statement kinds the body digest renders. *)
Definition recognized (s : stmt) : bool :=
  match s with
  | Assign _ _ | If _ _ _ | For _ _ _ _ | Return _ => true
  | Expr (Call _ _ _) => true
  | _ => false
  end.

End Summarizer.

(** ** Exceptions and the pipeline *)

Module Py.

(** The exception classes the host functions raise on a file; each
    derives from [Exception]. *)
Inductive exn_class : Set :=
| SyntaxError | IndentationError | TabError | TokenError
| OSError | UnicodeDecodeError | ValueError | RecursionError | MemoryError.

(** An exception by its class and the text [str] gives for it. *)
Record exn : Set := Exn { class_of : exn_class; str_of : string }.

Inductive result (A : Type) : Type :=
| Ok (a : A)
| Raised (e : exn).

Arguments Ok {A} a.
Arguments Raised {A} e.

Definition bind {A B : Type} (m : result A) (k : A -> result B) : result B :=
  match m with
  | Ok a => k a
  | Raised e => Raised e
  end.

(** [try: body / except <class> as e: handler]: the handler runs when the
    class of the raised exception is matched; otherwise the exception
    goes on. *)
Definition try_except {A : Type} (body : result A) (matches : exn_class -> bool)
  (handler : exn -> result A) : result A :=
  match body with
  | Ok a => Ok a
  | Raised e => if matches (class_of e) then handler e else Raised e
  end.

(** [isinstance(e, SyntaxError)]: the class and its subclasses. *)
Definition isinstance_SyntaxError (c : exn_class) : bool :=
  match c with
  | SyntaxError | IndentationError | TabError => true
  | _ => false
  end.

(** [isinstance(e, Exception)] *)
Definition isinstance_Exception (c : exn_class) : bool := true.

End Py.

(** Two outcomes of one call of a host function are the same outcome. *)
Ltac same_run :=
  repeat match goal with
  | H : Py.Ok _ = Py.Raised _ |- _ => discriminate H
  | H : Py.Raised _ = Py.Ok _ |- _ => discriminate H
  | H : Py.Ok _ = Py.Ok _ |- _ => injection H as <-
  | H : Py.Raised _ = Py.Raised _ |- _ => injection H as <-
  | H1 : ?x = Py.Ok _, H2 : ?x = Py.Ok _ |- _ =>
      rewrite H1 in H2; injection H2 as <-
  | H1 : ?x = Py.Raised _, H2 : ?x = Py.Raised _ |- _ =>
      rewrite H1 in H2; injection H2 as <-
  | H1 : ?x = Py.Ok _, H2 : ?x = Py.Raised _ |- _ =>
      rewrite H1 in H2; discriminate H2
  | H1 : ?x = Py.Raised _, H2 : ?x = Py.Ok _ |- _ =>
      rewrite H1 in H2; discriminate H2
  end.

Notation "x <- m ;; k" := (Py.bind m (fun x => k))
  (at level 61, m at next level, right associativity).

Section Pipeline.

Import Py.

(** The host: reading a file as UTF-8 text, [tokenize.generate_tokens]
    run to its end, and [ast.parse].  The token generator is consumed by
    one [for] loop whose [output] is local: when the generator raises
    part-way, what the loop had appended is lost with the frame, so the
    generator is either the whole stream or the exception. *)
Variable read_text : string -> result string.
Variable generate_tokens : string -> result (list token).
Variable ast_parse : string -> result Ast.module.

(** The limits of the interpreter while the visitor runs on a tree: the
    exception raised, if one is ([RecursionError] on a tree nested
    deeper than the recursion limit, [ValueError] when [str] meets an
    int of more digits than the conversion limit).  With no fault the
    visit is [Summarizer.visit_Module]. *)
Variable visit_fault : Ast.module -> option exn.

(** [summarizer = CodeSummarizer(); summarizer.visit(tree)] *)
Definition run_visitor (tree : Ast.module) : result (list string) :=
  match visit_fault tree with
  | Some e => Raised e
  | None => Ok (Summarizer.visit_Module tree)
  end.

(** [tokenize_code] *)
Definition tokenize_code (code : string) : result string :=
  tokens <- generate_tokens code ;;
  Ok (Reducer.tokenize_tokens tokens).

(** [summarize_code_with_ast] *)
Definition summarize_code_with_ast (code : string) : result string :=
  try_except
    (tree <- ast_parse code ;;
     summary <- run_visitor tree ;;
     Ok (Summarizer.get_summary summary))
    isinstance_SyntaxError
    (fun e => Ok ("Error in parsing code: " ++ str_of e)).

(** The exception [e] is raised inside the [try] of
    [summarize_code_with_ast] on [code]: by the parser, or during the
    visit of the tree the parser returned. *)
Definition raised_inside (code : string) (e : exn) : Prop :=
  ast_parse code = Raised e
  \/ (exists tree : Ast.module, ast_parse code = Ok tree /\ visit_fault tree = Some e).

(** [compress_code] *)
Definition compress_code (code : string) : result string :=
  cleaned_code <- tokenize_code code ;;
  summarize_code_with_ast cleaned_code.

(** [summarize_file] *)
Definition summarize_file (file_path : string) : result string :=
  try_except
    (code <- read_text file_path ;;
     compress_code code)
    isinstance_Exception
    (fun e => Ok ("Error summarizing " ++ file_path ++ ": " ++ str_of e)).

End Pipeline.

(** ** The reducer's column tracker against the text

    The loop's record of where the last kept token ended agrees with the
    position [q]: it is [q], or it lies on an earlier row and [q] opens
    a row. *)
Definition tracks (st : Reducer.state) (q : Layout.pos) : Prop :=
  (Reducer.last_lineno st = fst q /\ Reducer.last_col st = snd q)
  \/ (Reducer.last_lineno st < fst q /\ snd q = 0).


(** ** The drop rule as the specification words it

    "Drop every token whose kind is comment; drop every token whose kind
    is string literal and whose immediately preceding kept-or-dropped
    token was an indent token": the kind remembered is that of the token
    just before, whether or not it was dropped, and there is none before
    the first token. *)

Module SpecRule.

Definition preceded_by_indent (before : option toktype) : bool :=
  match before with
  | Some INDENT => true
  | _ => false
  end.

Fixpoint skipped (before : option toktype) (toks : list token) : list bool :=
  match toks with
  | [] => []
  | t :: rest =>
      (Reducer.is_comment t
       || (toktype_beq (tok_type t) STRING && preceded_by_indent before))
      :: skipped (Some (tok_type t)) rest
  end.

End SpecRule.

(** ** Sample inputs *)

Module Samples.

Import Layout Ast Py.

Definition tk (k : toktype) (s : string) (r c r' c' : Z) : token :=
  TokenInfo k s r c r' c'.

(** The token stream of the two lines [def f():] and [    'a' 'b']
    (a body made of two adjacent string literals). *)
Definition two_strings_body : list token :=
  [ tk NAME "def" 1 0 1 3; tk NAME "f" 1 4 1 5; tk OP "(" 1 5 1 6;
    tk OP ")" 1 6 1 7; tk OP ":" 1 7 1 8; tk NEWLINE PyStr.nl 1 8 1 9;
    tk INDENT "    " 2 0 2 4; tk STRING "'a'" 2 4 2 7;
    tk STRING "'b'" 2 8 2 11; tk NEWLINE PyStr.nl 2 11 2 12;
    tk DEDENT "" 3 0 3 0; tk ENDMARKER "" 3 0 3 0 ].

(** The line [x = 1] with a tab character, not a space, on either side
    of the [=] sign. *)
Definition tabbed_assignment : list lexeme :=
  [ Lexeme "" (tk NAME "x" 1 0 1 1);
    Lexeme PyStr.ht (tk OP "=" 1 2 1 3);
    Lexeme PyStr.ht (tk NUMBER "1" 1 4 1 5);
    Lexeme "" (tk NEWLINE PyStr.nl 1 5 1 6);
    Lexeme "" (tk ENDMARKER "" 2 0 2 0) ].

(** The lines [x = 1] and [y = 2]. *)
Definition two_assignments : list lexeme :=
  [ Lexeme "" (tk NAME "x" 1 0 1 1);
    Lexeme " " (tk OP "=" 1 2 1 3);
    Lexeme " " (tk NUMBER "1" 1 4 1 5);
    Lexeme "" (tk NEWLINE PyStr.nl 1 5 1 6);
    Lexeme "" (tk NAME "y" 2 0 2 1);
    Lexeme " " (tk OP "=" 2 2 2 3);
    Lexeme " " (tk NUMBER "2" 2 4 2 5);
    Lexeme "" (tk NEWLINE PyStr.nl 2 5 2 6);
    Lexeme "" (tk ENDMARKER "" 3 0 3 0) ].




(** A host with one file, [bad.py], holding [def f(:]: the tokenizer
    reaches the end of the text inside the open parenthesis and raises;
    the parser, were it asked, would reject the text too. *)
Definition unclosed_read (path : string) : result string :=
  if String.eqb path "bad.py" then Ok "def f(:"
  else Raised (Exn OSError "[Errno 2] No such file or directory").

Definition unclosed_tokens (code : string) : result (list token) :=
  Raised (Exn TokenError "('EOF in multi-line statement', (2, 0))").

Definition unclosed_parse (code : string) : result module :=
  Raised (Exn SyntaxError "'(' was never closed (<unknown>, line 1)").

(** A host with one file, [twice.py], holding the line [x = = 1]: it
    tokenizes, and the parser rejects it. *)
Definition twice_text : string := "x = = 1" ++ PyStr.nl.

Definition twice_read (path : string) : result string :=
  if String.eqb path "twice.py" then Ok twice_text
  else Raised (Exn OSError "[Errno 2] No such file or directory").

Definition twice_tokens (code : string) : result (list token) :=
  Ok [ tk NAME "x" 1 0 1 1; tk OP "=" 1 2 1 3; tk OP "=" 1 4 1 5;
       tk NUMBER "1" 1 6 1 7; tk NEWLINE PyStr.nl 1 7 1 8;
       tk ENDMARKER "" 2 0 2 0 ].

Definition twice_parse (code : string) : result module :=
  Raised (Exn SyntaxError "invalid syntax (<unknown>, line 1)").

(** [def outer(a):] with the body [def inner(b): return b] and
    [return inner]. *)
Definition nested_functions : module :=
  Module_
    [ FunctionDef "outer" (Arguments [] ["a"] None [] None)
        [ FunctionDef "inner" (Arguments [] ["b"] None [] None)
            [ Return (Some (Name "b")) ] [];
          Return (Some (Name "inner")) ]
        [] ].

(** [async def fetch(url):] with the body [def parse(raw): pass]. *)
Definition async_with_inner : stmt :=
  AsyncFunctionDef "fetch" (Arguments [] ["url"] None [] None)
    [ FunctionDef "parse" (Arguments [] ["raw"] None [] None) [ Pass ] [] ]
    [].

(** A body [while x: pass], [raise], [y = f(1)], [return a + b]. *)
Definition no_fault (tree : module) : option exn := None.

(** The line [x = 1] with no newline after it, and what the tokenizer
    supplies at the end of such an input. *)
Definition unterminated_assignment : list lexeme :=
  [ Lexeme "" (tk NAME "x" 1 0 1 1);
    Lexeme " " (tk OP "=" 1 2 1 3);
    Lexeme " " (tk NUMBER "1" 1 4 1 5) ].

Definition supplied_ending : list token :=
  [ tk NEWLINE "" 1 5 1 6; tk ENDMARKER "" 2 0 2 0 ].

(** A host with one file, [doc.py], of four lines: [def f():], its body
    [    'doc'], [class Foo:] and [    pass].  The file parses as it
    is; once the reducer has dropped the only statement of [f], the
    parser finds no block after the [def] line. *)
Definition docstring_only_text : string :=
  "def f():" ++ PyStr.nl ++ "    'doc'" ++ PyStr.nl
  ++ "class Foo:" ++ PyStr.nl ++ "    pass" ++ PyStr.nl.

Definition docstring_only_stream : list token :=
  [ tk NAME "def" 1 0 1 3; tk NAME "f" 1 4 1 5; tk OP "(" 1 5 1 6;
    tk OP ")" 1 6 1 7; tk OP ":" 1 7 1 8; tk NEWLINE PyStr.nl 1 8 1 9;
    tk INDENT "    " 2 0 2 4; tk STRING "'doc'" 2 4 2 9;
    tk NEWLINE PyStr.nl 2 9 2 10;
    tk DEDENT "" 3 0 3 0; tk NAME "class" 3 0 3 5; tk NAME "Foo" 3 6 3 9;
    tk OP ":" 3 9 3 10; tk NEWLINE PyStr.nl 3 10 3 11;
    tk INDENT "    " 4 0 4 4; tk NAME "pass" 4 4 4 8;
    tk NEWLINE PyStr.nl 4 8 4 9;
    tk DEDENT "" 5 0 5 0; tk ENDMARKER "" 5 0 5 0 ].

Definition docstring_only_tree : module :=
  Module_
    [ FunctionDef "f" (Arguments [] [] None [] None)
        [ Expr (Constant (CStr "doc")) ] [];
      ClassDef "Foo" [] [ Pass ] [] ].

Definition docstring_only_read (path : string) : result string :=
  if String.eqb path "doc.py" then Ok docstring_only_text
  else Raised (Exn OSError "[Errno 2] No such file or directory").

Definition docstring_only_tokens (code : string) : result (list token) :=
  if String.eqb code docstring_only_text then Ok docstring_only_stream
  else Raised (Exn TokenError "('EOF in multi-line statement', (2, 0))").

Definition docstring_only_parse (code : string) : result module :=
  if String.eqb code docstring_only_text then Ok docstring_only_tree
  else Raised (Exn IndentationError
    "expected an indented block after function definition on line 1 (<unknown>, line 3)").

(** [async def fetch(): pass] and [class Foo: pass], both top-level. *)
Definition async_and_class : module :=
  Module_
    [ AsyncFunctionDef "fetch" (Arguments [] [] None [] None) [ Pass ] [];
      ClassDef "Foo" [] [ Pass ] [] ].

(** A host with one file, [flat.py], of five lines: [def add(a, b):],
    [    return a + b], [class Foo:], [    pass] and [x = 1]. *)
Definition flat_text : string :=
  "def add(a, b):" ++ PyStr.nl ++ "    return a + b" ++ PyStr.nl
  ++ "class Foo:" ++ PyStr.nl ++ "    pass" ++ PyStr.nl
  ++ "x = 1" ++ PyStr.nl.

Definition flat_stream : list token :=
  [ tk NAME "def" 1 0 1 3; tk NAME "add" 1 4 1 7; tk OP "(" 1 7 1 8;
    tk NAME "a" 1 8 1 9; tk OP "," 1 9 1 10; tk NAME "b" 1 11 1 12;
    tk OP ")" 1 12 1 13; tk OP ":" 1 13 1 14; tk NEWLINE PyStr.nl 1 14 1 15;
    tk INDENT "    " 2 0 2 4; tk NAME "return" 2 4 2 10; tk NAME "a" 2 11 2 12;
    tk OP "+" 2 13 2 14; tk NAME "b" 2 15 2 16; tk NEWLINE PyStr.nl 2 16 2 17;
    tk DEDENT "" 3 0 3 0; tk NAME "class" 3 0 3 5; tk NAME "Foo" 3 6 3 9;
    tk OP ":" 3 9 3 10; tk NEWLINE PyStr.nl 3 10 3 11;
    tk INDENT "    " 4 0 4 4; tk NAME "pass" 4 4 4 8;
    tk NEWLINE PyStr.nl 4 8 4 9;
    tk DEDENT "" 5 0 5 0; tk NAME "x" 5 0 5 1; tk OP "=" 5 2 5 3;
    tk NUMBER "1" 5 4 5 5; tk NEWLINE PyStr.nl 5 5 5 6;
    tk ENDMARKER "" 6 0 6 0 ].

Definition flat_read (path : string) : result string :=
  if String.eqb path "flat.py" then Ok flat_text
  else Raised (Exn OSError "[Errno 2] No such file or directory").

Definition flat_tokens (code : string) : result (list token) :=
  if String.eqb code flat_text then Ok flat_stream
  else Raised (Exn TokenError "('EOF in multi-line statement', (2, 0))").

Definition mixed_body : list stmt :=
  [ While (Name "x") [ Pass ] [];
    Raise None None;
    Assign [ Name "y" ] (Call (Name "f") [ Constant (CInt 1) ] []);
    Return (Some (BinOp (Name "a") Add (Name "b"))) ].

(** A module of [def add(a, b): return a + b], [class Foo: pass] and
    [x = 1]. *)
Definition flat_module : module :=
  Module_
    [ FunctionDef "add" (Arguments [] ["a"; "b"] None [] None)
        [ Return (Some (BinOp (Name "a") Add (Name "b"))) ] [];
      ClassDef "Foo" [] [ Pass ] [];
      Assign [ Name "x" ] (Constant (CInt 1)) ].

Definition flat_parse (code : string) : result module :=
  if String.eqb code flat_text then Ok flat_module
  else Raised (Exn SyntaxError "invalid syntax (<unknown>, line 1)").

End Samples.

(** ** The second reducer: [remove_comments_and_docstrings]

    The same loop written with a nested test for the docstring; its list
    is called [out] in the source and shares the record of the first
    loop here. *)

Module Sibling.

Import Reducer.

Definition loop_body (st : state) (t : token) : state :=
  if toktype_beq (tok_type t) COMMENT then st
  else
    let emit :=
      let last_col' := if srow t >? last_lineno st then 0 else last_col st in
      let out' :=
        if scol t >? last_col'
        then append (output st) (PyStr.mul " " (scol t - last_col'))
        else output st in
      {| output := append out' (tok_string t);
         prev_toktype := tok_type t;
         last_lineno := erow t;
         last_col := ecol t |} in
    if toktype_beq (tok_type t) STRING
    then if toktype_beq (prev_toktype st) INDENT then st else emit
    else emit.

(** The loop from [out = []], [prev_toktype = tokenize.INDENT],
    [last_lineno = -1], [last_col = 0], then [return "".join(out)]. *)
Definition remove_tokens (toks : list token) : string :=
  PyStr.join "" (output (fold_left loop_body toks initial)).

End Sibling.

Section SiblingPipeline.

Variable generate_tokens : string -> Py.result (list token).

(** [remove_comments_and_docstrings] *)
Definition remove_comments_and_docstrings (code : string) : Py.result string :=
  tokens <- generate_tokens code ;;
  Py.Ok (Sibling.remove_tokens tokens).

End SiblingPipeline.

(** ** What the output is woven from *)

(** Gaps and texts in turn: [g1 t1 g2 t2 ...]. *)
Fixpoint weave (gaps texts : list string) : string :=
  match gaps, texts with
  | g :: gaps', t :: texts' => g ++ t ++ weave gaps' texts'
  | _, _ => ""
  end.

(** ** The directory walk: [summarize] *)

Module Batch.

Import Py.

(** [EXCLUDED_DIRS] *)
Definition EXCLUDED_DIRS : list string :=
  ["node_modules"; "__pycache__"; ".git"; "dist"; "build"].

(** [supported_extensions] *)
Definition supported_extensions : list string := [".py"; ".rs"; ".ts"; ".js"].

(** [x in xs] on strings. *)
Definition str_in (x : string) (xs : list string) : bool :=
  existsb (String.eqb x) xs.

(** [s.endswith(suffix)] *)
Fixpoint endswith (s suffix : string) : bool :=
  if String.eqb s suffix then true
  else
    match s with
    | EmptyString => false
    | String _ s' => endswith s' suffix
    end.

(** [any(file.endswith(ext) for ext in supported_extensions)] *)
Definition is_supported (file : string) : bool :=
  existsb (fun ext => endswith file ext) supported_extensions.

(** A directory as [os.walk] finds it: its name, its sub-directories and
    the names of its files, each list in the order of the scan. *)
Inductive tree : Set :=
| Dir (name : string) (dirs : list tree) (files : list string).

Definition dir_name (t : tree) : string :=
  match t with Dir name _ _ => name end.

(** What the loop of [summarize] builds: the list [project_summary], and
    the lines given to [typer.echo]. *)
Record state : Set := State {
  project_summary : list string;
  echoed : list string
}.

Definition initial : state := {| project_summary := []; echoed := [] |}.

(** The section of one file:
    [f"File: {file_path}\n{summary}\n{'=' * 40}\n"]. *)
Definition section_of (file_path summary : string) : string :=
  "File: " ++ file_path ++ PyStr.nl ++ summary ++ PyStr.nl
  ++ PyStr.repeat "=" 40 ++ PyStr.nl.

(** The sections of the files at [paths], given their summaries. *)
Definition sections (paths summaries : list string) : list string :=
  map (fun ps => section_of (fst ps) (snd ps)) (combine paths summaries).

(** The progress lines of the files at [paths]. *)
Definition progress (paths : list string) : list string :=
  map (fun file_path => "Summarizing " ++ file_path) paths.

(** The state after the files at [paths] were summarized. *)
Definition extend (st : state) (paths summaries : list string) : state :=
  {| project_summary := (project_summary st ++ sections paths summaries)%list;
     echoed := (echoed st ++ progress paths)%list |}.

(** A file of the full listing that the walk is to summarize: not
    below an excluded directory, and with a supported extension. *)
Definition wanted (e : bool * (string * string)) : bool :=
  negb (fst e) && is_supported (snd (snd e)).

(** A [for] loop whose body may raise. *)
Fixpoint for_each {S A : Type} (body : S -> A -> result S) (xs : list A) (s : S)
  : result S :=
  match xs with
  | [] => Ok s
  | x :: rest => s' <- body s x ;; for_each body rest s'
  end.

Section Walk.

(** The host: the three functions [summarize_file] rests on,
    [str(Path(root) / file)], [os.path.join] (by which [os.walk] names
    the directories it descends into), the directory tree found at a
    path ([None] when there is none to scan: [os.walk] then yields
    nothing), and writing a text file. *)
Variable read_text : string -> result string.
Variable generate_tokens : string -> result (list token).
Variable ast_parse : string -> result Ast.module.
Variable visit_fault : Ast.module -> option exn.
Variable path_of : string -> string -> string.
Variable os_path_join : string -> string -> string.
Variable scan : string -> option tree.
Variable write_text : string -> string -> result unit.

(** The summaries belong to the paths, one to one. *)
Definition summarized (paths summaries : list string) : Prop :=
  Forall2
    (fun file_path summary =>
       summarize_file read_text generate_tokens ast_parse visit_fault file_path = Ok summary)
    paths summaries.

(** The body of [for file in files]. *)
Definition file_step (root : string) (st : state) (file : string) : result state :=
  if is_supported file then
    let file_path := path_of root file in
    let echoed' := append (echoed st) ("Summarizing " ++ file_path) in
    summary <- summarize_file read_text generate_tokens ast_parse visit_fault file_path ;;
    Ok {| project_summary :=
            append (project_summary st) (section_of file_path summary);
          echoed := echoed' |}
  else Ok st.

(** [for root, dirs, files in os.walk(directory)] from the directory
    [t] found at [root]: the body prunes [dirs] in place and goes
    through [files]; the walk then descends, in order, into the
    directories the body left in [dirs]. *)
Fixpoint walk (root : string) (t : tree) (st : state) {struct t} : result state :=
  match t with
  | Dir _ dirs files =>
      st1 <- for_each (file_step root) files st ;;
      (fix descend (ds : list tree) (st : state) {struct ds} : result state :=
         match ds with
         | [] => Ok st
         | d :: rest =>
             if str_in (dir_name d) EXCLUDED_DIRS then descend rest st
             else
               st' <- walk (os_path_join root (dir_name d)) d st ;;
               descend rest st'
         end) dirs st1
  end.

(** The loop of [summarize] as a whole. *)
Definition collect (directory : string) : result state :=
  match scan directory with
  | Some t => walk directory t initial
  | None => Ok initial
  end.

(** [summarize]: the loop, then the [try] that writes the file.  The
    result is the list of echoed lines. *)
Definition summarize (directory output : string) : result (list string) :=
  st <- collect directory ;;
  try_except
    (_ <- write_text output (PyStr.join PyStr.nl (project_summary st)) ;;
     Ok (append (echoed st) ("Project summary written to " ++ output)))
    isinstance_Exception
    (fun e => Ok (append (echoed st)
                    ("Error writing to " ++ output ++ ": " ++ str_of e))).

(** Every file below [t], in the order of an unpruned walk, each with
    the path of its directory and with a flag telling whether a
    directory named in [EXCLUDED_DIRS] lies on the way to it from the
    directory the walk started in. *)
Fixpoint listing (excluded : bool) (root : string) (t : tree)
  : list (bool * (string * string)) :=
  match t with
  | Dir _ dirs files =>
      (map (fun file => (excluded, (root, file))) files
       ++ flat_map
            (fun d =>
               listing (excluded || str_in (dir_name d) EXCLUDED_DIRS)
                 (os_path_join root (dir_name d)) d)
            dirs)%list
  end.

(** The paths of the files the walk is to summarize. *)
Definition eligible_paths (root : string) (t : tree) : list string :=
  map (fun e => path_of (fst (snd e)) (snd (snd e)))
    (filter wanted (listing false root t)).

End Walk.

End Batch.

(** * Properties *)

(** ** Strings and joins *)

Lemma str_app_nil_r (s : string) : s ++ "" = s.
Proof. induction s as [|c s IH]; simpl; [reflexivity | now rewrite IH]. Qed.

Lemma str_app_assoc (a b c : string) : (a ++ b) ++ c = a ++ (b ++ c).
Proof. induction a as [|x a IH]; simpl; [reflexivity | now rewrite IH]. Qed.

Lemma join_nil_cons (x : string) (xs : list string) :
  PyStr.join "" (x :: xs) = x ++ PyStr.join "" xs.
Proof.
  unfold PyStr.join. destruct xs as [|y ys]; simpl.
  - now rewrite str_app_nil_r.
  - reflexivity.
Qed.

Lemma join_nil_app (xs ys : list string) :
  PyStr.join "" (xs ++ ys) = PyStr.join "" xs ++ PyStr.join "" ys.
Proof.
  induction xs as [|x xs IH].
  - reflexivity.
  - rewrite <- app_comm_cons, !join_nil_cons, IH. now rewrite str_app_assoc.
Qed.

(** ** The loop of the reducer *)

Lemma toktype_beq_eq (a b : toktype) : toktype_beq a b = true <-> a = b.
Proof. split; [| intros ->; destruct b; reflexivity]. destruct a, b; simpl; congruence. Qed.

Module ReducerFacts.

Import Reducer.

Lemma skips_iff (st : state) (t : token) :
  skips st t = true <->
  tok_type t = COMMENT \/ (tok_type t = STRING /\ prev_toktype st = INDENT).
Proof.
  unfold skips, is_comment, is_docstring.
  rewrite orb_true_iff, andb_true_iff, !toktype_beq_eq. tauto.
Qed.

Lemma loop_body_skip (st : state) (t : token) :
  skips st t = true -> loop_body st t = st.
Proof.
  unfold skips, loop_body. intros H.
  destruct (is_comment t); [reflexivity |].
  simpl in H. now rewrite H.
Qed.

Lemma loop_body_keep (st : state) (t : token) :
  skips st t = false ->
  loop_body st t =
    {| output := (output st ++ gap st t ++ [tok_string t])%list;
       prev_toktype := tok_type t;
       last_lineno := erow t;
       last_col := ecol t |}.
Proof.
  unfold skips, loop_body, gap. intros H.
  apply orb_false_iff in H as [-> ->].
  destruct (srow t >? last_lineno st); cbv zeta;
    destruct (scol t >? _); unfold append;
    rewrite <- ?app_assoc; simpl; now rewrite ?app_nil_r.
Qed.

Lemma loop_body_fixed_iff (st : state) (t : token) :
  loop_body st t = st <-> skips st t = true.
Proof.
  split; [| apply loop_body_skip].
  destruct (skips st t) eqn:E; [reflexivity |].
  rewrite (loop_body_keep _ _ E). intros H.
  apply (f_equal (fun s => List.length (output s))) in H. simpl in H.
  rewrite !length_app in H. simpl in H. lia.
Qed.

Lemma kept_not_skipped (st : state) (t : token) :
  loop_body st t <> st -> skips st t = false.
Proof.
  intros H. apply not_true_is_false. intros E. apply H.
  now apply loop_body_fixed_iff.
Qed.

Lemma run_app (st : state) (a b : list token) :
  run st (a ++ b) = run (run st a) b.
Proof. apply fold_left_app. Qed.

Lemma run_cons (st : state) (t : token) (rest : list token) :
  run st (t :: rest) = run (loop_body st t) rest.
Proof. reflexivity. Qed.


Lemma last_cons_default {A : Type} (x : A) (l : list A) (d d' : A) :
  last (x :: l) d = last (x :: l) d'.
Proof.
  revert x. induction l as [|y l IH]; intros x; [reflexivity |].
  change (last (y :: l) d = last (y :: l) d'). apply IH.
Qed.

(** The tracker after a run from a state whose tracker is [prev]: the
    kind of the last token that was not skipped. *)
Lemma run_prev_toktype (toks : list token) (st : state) :
  prev_toktype (run st toks) =
  last (map tok_type (select (map negb (skipped (prev_toktype st) toks)) toks))
       (prev_toktype st).
Proof.
  revert st. induction toks as [|t toks IH]; intros st; [reflexivity |].
  rewrite run_cons, IH. simpl.
  fold (skips st t). destruct (skips st t) eqn:E.
  - rewrite (loop_body_skip _ _ E). reflexivity.
  - rewrite (loop_body_keep _ _ E). simpl.
    destruct (select _ toks) as [|k ks]; [reflexivity |].
    simpl map. apply last_cons_default.
Qed.

(** Skipped tokens leave no trace: the loop on a stream is the loop on
    the tokens it keeps. *)
Lemma run_kept_only (toks : list token) (st : state) :
  run st toks =
  run st (select (map negb (skipped (prev_toktype st) toks)) toks).
Proof.
  revert st. induction toks as [|t toks IH]; intros st; [reflexivity |].
  cbn [skipped]. fold (skips st t).
  destruct (skips st t) eqn:E; cbn [map negb select].
  - rewrite run_cons, (loop_body_skip _ _ E). apply IH.
  - rewrite !run_cons, !(loop_body_keep _ _ E). now rewrite IH.
Qed.

End ReducerFacts.

(** ** Positions in a text *)

Module LayoutFacts.

Import Reducer Layout ReducerFacts.

Lemma pos_eqb_eq (p q : pos) : pos_eqb p q = true <-> p = q.
Proof.
  unfold pos_eqb. destruct p as [r c], q as [r' c']; simpl.
  rewrite andb_true_iff, !Z.eqb_eq. split; [intros [-> ->] | intros [= -> ->]]; auto.
Qed.


Lemma advance_single_line (s : string) (p : pos) :
  single_line s = true ->
  advance p s = (fst p, snd p + Z.of_nat (String.length s)).
Proof.
  revert p. induction s as [|c s IH]; intros [r k] H.
  - simpl. f_equal. lia.
  - unfold single_line in H. simpl in H. apply andb_true_iff in H as [Hc Hs].
    cbn [advance]. unfold advance1. apply negb_true_iff in Hc. rewrite Hc.
    rewrite (IH _ Hs). cbn [fst snd String.length]. f_equal. lia.
Qed.

Lemma blank_single_line (s : string) : blank s = true -> single_line s = true.
Proof.
  unfold blank, single_line. induction s as [|c s IH]; simpl; [reflexivity |].
  intros H. apply andb_true_iff in H as [Hc Hs]. rewrite (IH Hs), andb_true_r.
  apply Ascii.eqb_eq in Hc. subst c. reflexivity.
Qed.

Lemma blank_repeat (s : string) :
  blank s = true -> s = PyStr.repeat " " (String.length s).
Proof.
  unfold blank. induction s as [|c s IH]; simpl; [reflexivity |].
  intros H. apply andb_true_iff in H as [Hc Hs].
  apply Ascii.eqb_eq in Hc. subst c. now rewrite <- (IH Hs).
Qed.

Lemma repeat_space_blank (n : nat) : blank (PyStr.repeat " " n) = true.
Proof. induction n as [|n IH]; [reflexivity | exact IH]. Qed.



Lemma tracks_initial : tracks initial origin.
Proof. right. simpl. lia. Qed.

Lemma tracks_after (st : state) (t : token) (e : pos) :
  end_ok t e = true ->
  tracks {| output := (output st ++ gap st t ++ [tok_string t])%list;
            prev_toktype := tok_type t;
            last_lineno := erow t;
            last_col := ecol t |} e.
Proof.
  unfold end_ok, tracks. intros H. apply orb_true_iff in H as [H | H].
  - apply pos_eqb_eq in H. left. simpl. now rewrite <- H.
  - apply andb_true_iff in H as [H1 H2]. right. simpl. lia.
Qed.

(** On the row of [q] the column the loop measures the gap from is the
    column of [q]. *)
Lemma join_gap (st : state) (q : pos) (t : token) :
  tracks st q -> srow t = fst q ->
  PyStr.join "" (gap st t) = PyStr.mul " " (scol t - snd q).
Proof.
  intros Htr Hrow. unfold gap.
  assert (Hcol : (if srow t >? last_lineno st then 0 else last_col st) = snd q).
  { destruct Htr as [[HL HC] | [HL HC]].
    - rewrite Hrow, HL. rewrite Z.gtb_ltb, Z.ltb_irrefl. exact HC.
    - rewrite Hrow. assert (E : (fst q >? last_lineno st) = true)
        by (rewrite Z.gtb_ltb; apply Z.ltb_lt; lia).
      now rewrite E, HC. }
  rewrite Hcol. destruct (scol t >? snd q) eqn:E.
  - reflexivity.
  - rewrite Z.gtb_ltb in E. apply Z.ltb_ge in E.
    unfold PyStr.mul. replace (Z.to_nat (scol t - snd q)) with 0%nat by lia.
    reflexivity.
Qed.

Lemma output_keep (st : state) (q : pos) (t : token) :
  tracks st q -> srow t = fst q -> skips st t = false ->
  PyStr.join "" (output (loop_body st t)) =
  PyStr.join "" (output st) ++ PyStr.mul " " (scol t - snd q) ++ tok_string t.
Proof.
  intros Htr Hrow Hk. rewrite (loop_body_keep _ _ Hk). cbn [output].
  rewrite !join_nil_app, (join_gap _ _ _ Htr Hrow).
  unfold PyStr.join at 2. simpl. reflexivity.
Qed.

(** The loop spells the text back when nothing is skipped and the leads
    are blank. *)
Lemma run_spells (ls : list lexeme) :
  forall (st : state) (p : pos),
    tracks st p ->
    positioned p ls = true ->
    forallb (fun l => blank (lead l)) ls = true ->
    comment_free (toks ls) = true ->
    docstring_free (prev_toktype st) (toks ls) = true ->
    PyStr.join "" (output (run st (toks ls))) =
    PyStr.join "" (output st) ++ source_text ls.
Proof.
  induction ls as [|l ls IH]; intros st p Htr Hpos Hbl Hc Hd.
  - simpl. unfold source_text. simpl. now rewrite str_app_nil_r.
  - cbn [positioned] in Hpos.
    apply andb_true_iff in Hpos as [Hpos Hrest].
    apply andb_true_iff in Hpos as [Hstart Hend].
    simpl in Hbl. apply andb_true_iff in Hbl as [Hb Hbl].
    unfold comment_free in Hc. simpl in Hc, Hd.
    apply andb_true_iff in Hc as [Hc1 Hc], Hd as [Hd1 Hd].
    apply negb_true_iff in Hc1, Hd1.
    apply pos_eqb_eq in Hstart.
    rewrite (advance_single_line _ _ (blank_single_line _ Hb)) in Hstart, Hend, Hrest.
    injection Hstart as Hrow Hcol.
    assert (Hk : skips st (tok l) = false)
      by (unfold skips; now rewrite Hc1, Hd1).
    unfold toks. cbn [map]. rewrite run_cons. fold (toks ls).
    pose proof (tracks_after st (tok l) _ Hend) as Htr'.
    rewrite <- (loop_body_keep _ _ Hk) in Htr'.
    rewrite (IH _ _ Htr' Hrest Hbl Hc)
      by (rewrite (loop_body_keep _ _ Hk); exact Hd).
    rewrite (output_keep _ _ _ Htr Hrow Hk).
    unfold source_text. cbn [map]. rewrite join_nil_cons.
    rewrite Hcol. replace (snd p + Z.of_nat (String.length (lead l)) - snd p)
      with (Z.of_nat (String.length (lead l))) by lia.
    unfold PyStr.mul. rewrite Nat2Z.id, <- (blank_repeat _ Hb).
    now rewrite !str_app_assoc.
Qed.

End LayoutFacts.

(** ** Where the kept tokens stand in the output *)

Module PlacementFacts.

Import Reducer Layout ReducerFacts LayoutFacts.




End PlacementFacts.

(** ** The tokens supplied at the end of the input *)

Module ClosingFacts.

Import Reducer Layout ReducerFacts.

Lemma comment_free_app (a b : list token) :
  comment_free (a ++ b) = true ->
  comment_free a = true /\ comment_free b = true.
Proof. unfold comment_free. rewrite forallb_app. apply andb_true_iff. Qed.

Lemma docstring_free_app (a b : list token) :
  forall before : toktype,
    docstring_free before (a ++ b) = true ->
    docstring_free before a = true
    /\ docstring_free (last (map tok_type a) before) b = true.
Proof.
  induction a as [|t a IH]; intros before H; [now split |].
  cbn [app docstring_free] in H. apply andb_true_iff in H as [Ht H].
  destruct (IH _ H) as [Ha Hb]. split.
  - cbn [docstring_free]. now rewrite Ht, Ha.
  - destruct a as [|t' a']; [exact Hb |].
    cbn [map] in *. now rewrite (last_cons_default _ _ before (tok_type t)).
Qed.

(** With nothing to skip, the loop's record after a stream is that of
    its last token. *)
Lemma run_plain_record (toks : list token) :
  forall st : state,
    comment_free toks = true ->
    docstring_free (prev_toktype st) toks = true ->
    (last_lineno (run st toks), last_col (run st toks))
    = last (map (fun t => (erow t, ecol t)) toks) (last_lineno st, last_col st)
    /\ prev_toktype (run st toks) = last (map tok_type toks) (prev_toktype st).
Proof.
  induction toks as [|t toks IH]; intros st Hc Hd; [now split |].
  unfold comment_free in Hc. cbn [forallb docstring_free] in Hc, Hd.
  apply andb_true_iff in Hc as [Hc1 Hc], Hd as [Hd1 Hd].
  apply negb_true_iff in Hc1, Hd1.
  assert (Hk : skips st t = false) by (unfold skips; now rewrite Hc1, Hd1).
  rewrite run_cons, (loop_body_keep _ _ Hk).
  destruct (IH {| output := (output st ++ gap st t ++ [tok_string t])%list;
                  prev_toktype := tok_type t;
                  last_lineno := erow t;
                  last_col := ecol t |} Hc Hd) as [H1 H2].
  rewrite H1, H2. cbn [last_lineno last_col prev_toktype map].
  destruct toks as [|t' toks']; [now split |].
  cbn [map]. split.
  - exact (last_cons_default _ _ (erow t, ecol t) (last_lineno st, last_col st)).
  - exact (last_cons_default _ _ (tok_type t) (prev_toktype st)).
Qed.

(** The supplied tokens add nothing to the output. *)
Lemma run_closing (ending : list token) :
  forall st : state,
    closing (last_lineno st, last_col st) ending = true ->
    comment_free ending = true ->
    docstring_free (prev_toktype st) ending = true ->
    PyStr.join "" (output (run st ending)) = PyStr.join "" (output st).
Proof.
  induction ending as [|t ending IH]; intros st Hcl Hc Hd; [reflexivity |].
  unfold comment_free in Hc. cbn [forallb docstring_free closing fst snd] in Hc, Hd, Hcl.
  apply andb_true_iff in Hc as [Hc1 Hc], Hd as [Hd1 Hd], Hcl as [Hcl Hrest].
  apply andb_true_iff in Hcl as [Htext Hcol].
  apply negb_true_iff in Hc1, Hd1. apply String.eqb_eq in Htext.
  assert (Hk : skips st t = false) by (unfold skips; now rewrite Hc1, Hd1).
  assert (Hgap : gap st t = []).
  { unfold gap. destruct (srow t >? last_lineno st);
      apply Z.leb_le in Hcol; rewrite Z.gtb_ltb;
      destruct (Z.ltb_spec 0 (scol t)); destruct (Z.ltb_spec (last_col st) (scol t));
      try reflexivity; lia. }
  rewrite run_cons, (loop_body_keep _ _ Hk), Hgap, Htext.
  rewrite IH by assumption. cbn [output app].
  rewrite join_nil_app. unfold PyStr.join at 2. cbn. apply str_app_nil_r.
Qed.

End ClosingFacts.

(** ** The Lexical Reducer: the claims *)

Import Reducer Layout.

(** C9.  A string literal that is the first token of the input is
    removed although no indent token precedes it: the tracker
    [prev_toktype] starts as [INDENT], so the docstring test succeeds on
    the first token, the loop leaves every variable as it was, and the
    output is the output for the rest of the stream. *)
Theorem leading_string_literal_is_removed :
  forall (text : string) (r c r' c' : Z) (rest : list token),
    prev_toktype initial = INDENT
    /\ loop_body initial (TokenInfo STRING text r c r' c') = initial
    /\ tokenize_tokens (TokenInfo STRING text r c r' c' :: rest)
       = tokenize_tokens rest.
Proof.
  intros text r c r' c' rest.
  assert (H : loop_body initial (TokenInfo STRING text r c r' c') = initial)
    by reflexivity.
  split; [reflexivity |]. split; [exact H |].
  unfold tokenize_tokens. now rewrite ReducerFacts.run_cons, H.
Qed.

(** C2, as stated, fails on the body [    'a' 'b']: the second literal
    follows a string literal, not an indent token, so the rule that
    counts dropped tokens keeps it; the loop skips it, because skipping
    the first literal left the tracker at [INDENT]. *)
Lemma adjacent_string_literals_both_dropped :
  nth_error Samples.two_strings_body 7 = Some (Samples.tk STRING "'a'" 2 4 2 7)
  /\ nth_error Samples.two_strings_body 8 = Some (Samples.tk STRING "'b'" 2 8 2 11)
  /\ nth 8 (SpecRule.skipped None Samples.two_strings_body) true = false
  /\ nth 8 (skipped INDENT Samples.two_strings_body) false = true
  /\ loop_body (run initial (firstn 8 Samples.two_strings_body))
       (Samples.tk STRING "'b'" 2 8 2 11)
     = run initial (firstn 8 Samples.two_strings_body)
  /\ tokenize_tokens Samples.two_strings_body
     = "def f():" ++ PyStr.nl ++ PyStr.repeat " " 11 ++ PyStr.nl
  /\ skipped INDENT Samples.two_strings_body
     <> SpecRule.skipped None Samples.two_strings_body.
Proof.
  repeat split; try reflexivity. vm_compute. discriminate.
Qed.

(** C2, amended.  The reducer drops exactly the comment tokens and the
    string literals read while the tracker holds [INDENT]; the tracker
    holds the kind of the last token that was kept ([INDENT] before any
    was), since a dropped token does not update it.  Every other token
    is kept: its text is appended after its spacing.  The output is the
    output for the kept tokens alone.  So a string literal right after
    an indent token is always removed, and one that follows a kept token
    of another kind never is. *)
Theorem reducer_drop_rule :
  forall (pre : list token) (t : token),
    prev_toktype (run initial pre)
    = last (map tok_type (kept_tokens pre)) INDENT
    /\ (loop_body (run initial pre) t = run initial pre <->
        tok_type t = COMMENT
        \/ (tok_type t = STRING /\ prev_toktype (run initial pre) = INDENT))
    /\ (loop_body (run initial pre) t <> run initial pre ->
        output (loop_body (run initial pre) t)
        = (output (run initial pre) ++ gap (run initial pre) t ++ [tok_string t])%list
        /\ prev_toktype (loop_body (run initial pre) t) = tok_type t)
    /\ tokenize_tokens pre = tokenize_tokens (kept_tokens pre)
    /\ (forall i : token,
          tok_type i = INDENT -> tok_type t = STRING ->
          loop_body (run initial (pre ++ [i])) t = run initial (pre ++ [i]))
    /\ (forall k : token,
          loop_body (run initial pre) k <> run initial pre ->
          tok_type k <> INDENT -> tok_type t = STRING ->
          loop_body (run initial (pre ++ [k])) t <> run initial (pre ++ [k])).
Proof.
  intros pre t. split; [| split; [| split; [| split; [| split]]]].
  - apply (ReducerFacts.run_prev_toktype pre initial).
  - etransitivity; [apply ReducerFacts.loop_body_fixed_iff | apply ReducerFacts.skips_iff].
  - intros H. apply ReducerFacts.kept_not_skipped in H.
    rewrite (ReducerFacts.loop_body_keep _ _ H). split; reflexivity.
  - unfold tokenize_tokens, kept_tokens.
    now rewrite (ReducerFacts.run_kept_only pre initial).
  - intros i Hi Ht. apply ReducerFacts.loop_body_fixed_iff, ReducerFacts.skips_iff.
    right. split; [exact Ht |].
    rewrite ReducerFacts.run_app. cbn [run fold_left].
    assert (Hk : skips (run initial pre) i = false).
    { apply not_true_is_false. rewrite ReducerFacts.skips_iff. rewrite Hi.
      intros [H | [H _]]; discriminate. }
    rewrite (ReducerFacts.loop_body_keep _ _ Hk). exact Hi.
  - intros k Hk Hkind Ht H.
    apply ReducerFacts.kept_not_skipped in Hk.
    apply ReducerFacts.loop_body_fixed_iff, ReducerFacts.skips_iff in H.
    rewrite ReducerFacts.run_app in H. cbn [run fold_left] in H.
    rewrite (ReducerFacts.loop_body_keep _ _ Hk) in H. cbn [prev_toktype] in H.
    destruct H as [H | [_ H]]; congruence.
Qed.

(** C6, as stated, fails on the line [x = 1] written with a tab on
    either side of the [=] sign: the text has no comment and no string
    literal, and the reducer returns it with a space in place of each
    tab. *)
Lemma tabs_between_tokens_become_spaces :
  positioned origin Samples.tabbed_assignment = true
  /\ comment_free (toks Samples.tabbed_assignment) = true
  /\ docstring_free INDENT (toks Samples.tabbed_assignment) = true
  /\ source_text Samples.tabbed_assignment
     = "x" ++ PyStr.ht ++ "=" ++ PyStr.ht ++ "1" ++ PyStr.nl
  /\ tokenize_tokens (toks Samples.tabbed_assignment)
     = "x = 1" ++ PyStr.nl
  /\ tokenize_tokens (toks Samples.tabbed_assignment)
     <> source_text Samples.tabbed_assignment.
Proof.
  repeat split; try reflexivity. vm_compute. discriminate.
Qed.

(** C6, amended.  Take a source text that its token stream spells: the
    text is the texts of the tokens in order, each after a gap of space
    characters only (no tab, no backslash continuation, and nothing
    after the last token that has text), every token is recorded as
    starting where its gap ends, and the tokens supplied at the end of
    the input (the newline of a last line without one, the dedents, the
    end marker) have no text.  With no comment, and no string literal
    right after an indent token or at the very start, the reducer
    returns the text unchanged: reducing such a text is a no-op. *)
Theorem reducer_identity_on_plain_text :
  forall (ls : list lexeme) (ending : list token),
    positioned origin ls = true ->
    forallb (fun l => blank (lead l)) ls = true ->
    closing (recorded_end (toks ls)) ending = true ->
    comment_free (toks ls ++ ending) = true ->
    docstring_free INDENT (toks ls ++ ending) = true ->
    tokenize_tokens (toks ls ++ ending) = source_text ls.
Proof.
  intros ls ending Hpos Hbl Hcl Hc Hd. unfold tokenize_tokens.
  apply ClosingFacts.comment_free_app in Hc as [Hc1 Hc2].
  apply ClosingFacts.docstring_free_app in Hd as [Hd1 Hd2].
  destruct (ClosingFacts.run_plain_record (toks ls) initial Hc1 Hd1) as [Hrec Hprev].
  rewrite ReducerFacts.run_app.
  rewrite ClosingFacts.run_closing.
  - now rewrite (LayoutFacts.run_spells ls initial origin
                   LayoutFacts.tracks_initial Hpos Hbl Hc1 Hd1).
  - rewrite Hrec. exact Hcl.
  - exact Hc2.
  - rewrite Hprev. exact Hd2.
Qed.

(** On the lines [x = 1] and [y = 2], and on the line [x = 1] with no
    newline after it. *)
Lemma reducer_identity_on_two_assignments :
  positioned origin Samples.two_assignments = true
  /\ tokenize_tokens (toks Samples.two_assignments ++ [])
     = source_text Samples.two_assignments
  /\ source_text Samples.unterminated_assignment = "x = 1"
  /\ tokenize_tokens
       (toks Samples.unterminated_assignment ++ Samples.supplied_ending)
     = source_text Samples.unterminated_assignment.
Proof.
  split; [reflexivity |]. split; [| split; [reflexivity |]].
  - apply (reducer_identity_on_plain_text Samples.two_assignments []);
      reflexivity.
  - apply (reducer_identity_on_plain_text Samples.unterminated_assignment
             Samples.supplied_ending); reflexivity.
Defined.



(** ** The visitor *)

Module VisitorFacts.

Import Ast Summarizer.

(** Induction on a statement with the property known for its children. *)
Lemma stmt_children_ind (P : stmt -> Prop)
  (step : forall node : stmt, Forall P (children node) -> P node) :
  forall node : stmt, P node.
Proof.
  fix IH 1. intros node.
  apply step.
  destruct node as [n p body d | n p body d | n b body d | v | ts v
                   | t i body orelse | t body orelse | t body orelse
                   | e c | v | | k blocks]; cbn [children];
    try apply Forall_nil;
    try apply Forall_app; try split;
    match goal with
    | |- Forall P ?l =>
        induction l as [|x l IHl]; [apply Forall_nil | apply Forall_cons; [apply IH | exact IHl]]
    end.
Qed.

Lemma visit_each_app (a b : list stmt) (summary : list string) :
  visit_each (a ++ b) summary = visit_each b (visit_each a summary).
Proof. apply fold_left_app. Qed.

Lemma visit_each_cons (n : stmt) (rest : list stmt) (summary : list string) :
  visit_each (n :: rest) summary = visit_each rest (visit n summary).
Proof. reflexivity. Qed.

(** The local loop of [visit] is [visit_each]. *)
Lemma visit_each_local (nodes : list stmt) :
  forall summary : list string,
    (fix visit_each (nodes : list stmt) (summary : list string) : list string :=
       match nodes with
       | [] => summary
       | n :: rest => visit_each rest (visit n summary)
       end) nodes summary
    = visit_each nodes summary.
Proof.
  induction nodes as [|n rest IH]; intros summary; [reflexivity |].
  rewrite visit_each_cons. apply IH.
Qed.

(** [visit] dispatches the way [NodeVisitor.visit] does. *)
Lemma visit_dispatch (node : stmt) (summary : list string) :
  visit node summary =
  match node with
  | FunctionDef name params body decorator_list =>
      visit_FunctionDef name params body decorator_list summary
  | ClassDef name bases body decorator_list =>
      visit_ClassDef name bases body decorator_list summary
  | _ => generic_visit node summary
  end.
Proof.
  destruct node; cbn [visit]; unfold visit_FunctionDef, visit_ClassDef, generic_visit;
    cbn [children]; rewrite ?visit_each_app, ?visit_each_local; reflexivity.
Qed.

(** A node adds its own entry, if it has one, and then its children are
    visited. *)
Lemma visit_children (node : stmt) (summary : list string) :
  visit node summary = visit_each (children node) (summary ++ own_entry node)%list.
Proof.
  rewrite visit_dispatch.
  destruct node; unfold visit_FunctionDef, visit_ClassDef, generic_visit, append;
    cbn [children own_entry]; rewrite ?app_nil_r; reflexivity.
Qed.

Lemma preorder_forest_local (nodes : list stmt) :
  (fix forest (nodes : list stmt) : list stmt :=
     match nodes with
     | [] => []
     | n :: rest => preorder n ++ forest rest
     end%list) nodes
  = preorder_forest nodes.
Proof.
  induction nodes as [|n rest IH]; [reflexivity |].
  unfold preorder_forest in *. cbn [flat_map]. now rewrite <- IH.
Qed.

Lemma preorder_children (node : stmt) :
  preorder node = node :: preorder_forest (children node).
Proof.
  destruct node; cbn [preorder children]; f_equal;
    unfold preorder_forest at 1; rewrite ?flat_map_app;
    rewrite ?preorder_forest_local; reflexivity.
Qed.

(** The entries a visit adds are those of the nodes of the tree, in
    pre-order. *)
Lemma visit_preorder (node : stmt) :
  forall summary : list string,
    visit node summary = (summary ++ flat_map own_entry (preorder node))%list.
Proof.
  induction node as [node IH] using stmt_children_ind. intros summary.
  rewrite visit_children, preorder_children. cbn [flat_map].
  rewrite app_assoc. generalize (summary ++ own_entry node)%list as acc.
  induction IH as [|c cs Hc _ IHcs]; intros acc.
  - cbn. now rewrite app_nil_r.
  - rewrite visit_each_cons, Hc, IHcs.
    unfold preorder_forest. cbn [flat_map]. rewrite flat_map_app.
    now rewrite app_assoc.
Qed.

Lemma visit_each_preorder (nodes : list stmt) :
  forall summary : list string,
    visit_each nodes summary
    = (summary ++ flat_map own_entry (preorder_forest nodes))%list.
Proof.
  induction nodes as [|n rest IH]; intros summary.
  - cbn. now rewrite app_nil_r.
  - rewrite visit_each_cons, IH, visit_preorder.
    unfold preorder_forest. cbn [flat_map]. rewrite flat_map_app.
    now rewrite app_assoc.
Qed.

Lemma own_entry_length (node : stmt) :
  List.length (own_entry node) = if is_def node then 1%nat else 0%nat.
Proof. destruct node; reflexivity. Qed.

Lemma entries_count (nodes : list stmt) :
  List.length (flat_map own_entry nodes) = List.length (filter is_def nodes).
Proof.
  induction nodes as [|n rest IH]; [reflexivity |].
  cbn [flat_map filter]. rewrite length_app, own_entry_length, IH.
  destruct (is_def n); reflexivity.
Qed.

Lemma no_def_no_entry (nodes : list stmt) :
  existsb is_def nodes = false -> flat_map own_entry nodes = [].
Proof.
  induction nodes as [|n rest IH]; [reflexivity |].
  cbn [existsb flat_map]. intros H. apply orb_false_iff in H as [Hn Hrest].
  rewrite (IH Hrest), app_nil_r. destruct n; try discriminate; reflexivity.
Qed.

(** With every definition top-level, the pre-order entries are the
    entries of the top-level statements. *)
Lemma flat_entries (body : list stmt) :
  forallb (fun s => negb (existsb is_def (preorder_forest (children s)))) body = true ->
  flat_map own_entry (preorder_forest body) = flat_map own_entry body.
Proof.
  induction body as [|s body IH]; [reflexivity |].
  cbn [forallb]. intros H. apply andb_true_iff in H as [Hs H].
  apply negb_true_iff in Hs.
  change (preorder_forest (s :: body)) with (preorder s ++ preorder_forest body)%list.
  rewrite flat_map_app, (IH H), preorder_children. cbn [flat_map].
  now rewrite (no_def_no_entry _ Hs), app_nil_r.
Qed.

Lemma def_count (body : list stmt) :
  List.length (filter is_def body)
  = (List.length (filter is_FunctionDef body)
     + List.length (filter is_ClassDef body))%nat.
Proof.
  induction body as [|s body IH]; [reflexivity |].
  cbn [filter]. destruct s; cbn [is_def is_FunctionDef is_ClassDef orb];
    cbn [List.length]; lia.
Qed.

End VisitorFacts.

(** ** The body digest *)

Module DigestFacts.

Import Ast Summarizer.

Lemma str_app_nonempty_r (a b : string) : b <> "" -> a ++ b <> "".
Proof. destruct a; simpl; [auto | discriminate]. Qed.

Lemma body_step_acc (acc : list string) (s : stmt) :
  body_step acc s = (acc ++ body_step [] s)%list.
Proof.
  destruct s as [| | | | | | | | | v | |]; cbn [body_step]; unfold append;
    rewrite ?app_nil_r; try reflexivity.
  destruct v; cbn; now rewrite ?app_nil_r.
Qed.

Lemma important_lines_acc (body : list stmt) :
  forall acc : list string,
    fold_left body_step body acc = (acc ++ important_lines_of body)%list.
Proof.
  unfold important_lines_of.
  induction body as [|s body IH]; intros acc; cbn [fold_left].
  - now rewrite app_nil_r.
  - rewrite IH, (IH (body_step [] s)), (body_step_acc acc s).
    now rewrite app_assoc.
Qed.

Lemma important_lines_app (b1 b2 : list stmt) :
  important_lines_of (b1 ++ b2)
  = (important_lines_of b1 ++ important_lines_of b2)%list.
Proof.
  unfold important_lines_of at 1. rewrite fold_left_app.
  fold (important_lines_of b1). apply important_lines_acc.
Qed.

Lemma important_lines_cons (s : stmt) (body : list stmt) :
  important_lines_of (s :: body)
  = (important_lines_of [s] ++ important_lines_of body)%list.
Proof. apply (important_lines_app [s] body). Qed.

Lemma important_lines_flat_map (body : list stmt) :
  important_lines_of body = flat_map (fun s => important_lines_of [s]) body.
Proof.
  induction body as [|s body IH]; [reflexivity |].
  rewrite important_lines_cons, IH. reflexivity.
Qed.

(** A recognized statement renders as one non-empty fragment. *)
Lemma recognized_fragment (s : stmt) :
  recognized s = true ->
  exists fragment : string, important_lines_of [s] = [fragment] /\ fragment <> "".
Proof.
  destruct s as [| | | v | ts v | t i b o | | t b o | | v | |]; try discriminate; intros H.
  - eexists. split; [reflexivity | discriminate].
  - eexists. split; [reflexivity |].
    apply str_app_nonempty_r. discriminate.
  - eexists. split; [reflexivity | discriminate].
  - eexists. split; [reflexivity | discriminate].
  - destruct v; try discriminate.
    eexists. split; [reflexivity |].
    apply str_app_nonempty_r. discriminate.
Qed.

Lemma unrecognized_nothing (s : stmt) :
  recognized s = false -> important_lines_of [s] = [].
Proof.
  destruct s as [| | | | | | | | | v | |]; try discriminate; try reflexivity.
  destruct v; try discriminate; reflexivity.
Qed.

Lemma important_lines_length (body : list stmt) :
  List.length (important_lines_of body) = List.length (filter recognized body).
Proof.
  induction body as [|s body IH]; [reflexivity |].
  rewrite important_lines_cons, length_app, IH. cbn [filter].
  destruct (recognized s) eqn:E.
  - destruct (recognized_fragment s E) as (f & -> & _). reflexivity.
  - now rewrite (unrecognized_nothing s E).
Qed.

Lemma important_lines_nonempty (body : list stmt) :
  Forall (fun f => f <> "") (important_lines_of body).
Proof.
  induction body as [|s body IH]; [constructor |].
  rewrite important_lines_cons. apply Forall_app. split; [| exact IH].
  destruct (recognized s) eqn:E.
  - destruct (recognized_fragment s E) as (f & -> & Hf). now constructor.
  - rewrite (unrecognized_nothing s E). constructor.
Qed.

Lemma join_nonempty (sep f : string) (rest : list string) :
  f <> "" -> PyStr.join sep (f :: rest) <> "".
Proof.
  intros Hf. unfold PyStr.join. destruct rest as [|g rest]; cbn [String.concat].
  - exact Hf.
  - destruct f; [contradiction | discriminate].
Qed.

(** The digest is empty exactly when the body has no recognized
    statement. *)
Lemma digest_empty_iff (body : list stmt) :
  summarize_function_body body = "" <-> filter recognized body = [].
Proof.
  unfold summarize_function_body.
  pose proof (important_lines_length body) as Hlen.
  pose proof (important_lines_nonempty body) as Hne.
  destruct (important_lines_of body) as [|f rest].
  - split; [| reflexivity]. intros _.
    destruct (filter recognized body); [reflexivity | discriminate].
  - split; intros H.
    + inversion Hne; subst. now apply join_nonempty in H.
    + rewrite H in Hlen. discriminate.
Qed.

End DigestFacts.

(** ** The Structural Summarizer: the claims *)

Import Ast Summarizer.

(** C3.  The summary holds exactly one entry for each [FunctionDef] and
    [ClassDef] of the tree, in the order of a pre-order, depth-first
    traversal; the visit of a definition appends its own entry first and
    the entries of the definitions nested in it after that; a function
    defined inside a function gives two [Function:] entries, the outer
    one first. *)
Theorem summary_lists_definitions_in_preorder :
  forall tree : module,
    visit_Module tree = flat_map own_entry (preorder_forest (mod_body tree))
    /\ List.length (visit_Module tree)
       = List.length (filter is_def (preorder_forest (mod_body tree)))
    /\ (forall (d : stmt) (summary : list string),
          is_def d = true ->
          exists entry : string,
            own_entry d = [entry]
            /\ visit d summary
               = (summary ++ entry
                    :: flat_map own_entry (preorder_forest (children d)))%list)
    /\ visit_Module Samples.nested_functions
       = [ "Function: outer(a)" ++ PyStr.nl ++ "  Body: return inner";
           "Function: inner(b)" ++ PyStr.nl ++ "  Body: return b" ].
Proof.
  intros tree. split; [| split; [| split]].
  - unfold visit_Module. now rewrite VisitorFacts.visit_each_preorder.
  - unfold visit_Module. rewrite VisitorFacts.visit_each_preorder.
    apply VisitorFacts.entries_count.
  - intros d summary Hd.
    rewrite VisitorFacts.visit_preorder, VisitorFacts.preorder_children.
    cbn [flat_map].
    destruct d; try discriminate; eexists; split; reflexivity.
  - reflexivity.
Qed.

(** C4.  The body digest goes through the direct statements in order:
    each recognized statement (assignment, if, for, expression statement
    that is a call, return) gives exactly one fragment, every other
    statement gives none and leaves the fragments of the statements
    around it as they are, the fragments are joined with [" | "], and
    the entry of the function carries the [Body:] suffix exactly when
    the digest is not empty, which is when the body has a recognized
    statement. *)
Theorem body_digest_of_recognized_statements :
  forall body : list stmt,
    summarize_function_body body
    = PyStr.join " | " (flat_map (fun s => important_lines_of [s]) body)
    /\ (forall s : stmt,
          recognized s = true ->
          exists fragment : string, important_lines_of [s] = [fragment])
    /\ (forall s : stmt, recognized s = false -> important_lines_of [s] = [])
    /\ List.length (important_lines_of body) = List.length (filter recognized body)
    /\ (forall (before after : list stmt) (s : stmt),
          recognized s = false ->
          summarize_function_body (before ++ s :: after)
          = summarize_function_body (before ++ after))
    /\ (forall (name : string) (params : arguments),
          func_summary name params body
          = if String.eqb (summarize_function_body body) ""
            then "Function: " ++ name ++ "(" ++ PyStr.join ", " (args params) ++ ")"
            else ("Function: " ++ name ++ "(" ++ PyStr.join ", " (args params) ++ ")")
                 ++ PyStr.nl ++ "  Body: " ++ summarize_function_body body)
    /\ (summarize_function_body body = "" <-> filter recognized body = [])
    /\ summarize_function_body Samples.mixed_body = "y = f | return a + b".
Proof.
  intros body. split; [| split; [| split; [| split; [| split; [| split; [| split]]]]]].
  - unfold summarize_function_body.
    now rewrite <- DigestFacts.important_lines_flat_map.
  - intros s Hs. destruct (DigestFacts.recognized_fragment s Hs) as (f & Hf & _).
    now exists f.
  - apply DigestFacts.unrecognized_nothing.
  - apply DigestFacts.important_lines_length.
  - intros before after s Hs. unfold summarize_function_body.
    rewrite !DigestFacts.important_lines_app, DigestFacts.important_lines_cons.
    now rewrite (DigestFacts.unrecognized_nothing s Hs).
  - intros name params. unfold func_summary.
    destruct (summarize_function_body body); reflexivity.
  - apply DigestFacts.digest_empty_iff.
  - reflexivity.
Qed.

(** C5.  [get_name] renders an identifier as its text, an attribute
    access as the rendered base, a dot and the attribute, a call as its
    rendered callee whatever the arguments, a constant as the text [str]
    gives for its value, a binary operation as left, operator and right
    separated by single spaces, where the operator is one of [+ - * /]
    for [Add], [Sub], [Mult], [Div] and [?] for every other operator,
    and any other expression, or an absent one, as [...].  The text of a
    constant is [None], [True], [False] or [Ellipsis] for these values,
    the string itself for a string, the carried text for a float,
    complex or bytes value, and for an int the decimal numeral, with a
    minus sign when negative, that reads back as the int (when [str]
    returns: the cap of the interpreter on the digits of an int is a
    fault of the visit). *)
Theorem get_name_renders :
  (forall id : string, get_name (Name id) = id)
  /\ (forall (value : expr) (attr : string),
        get_name (Attribute value attr) = get_name value ++ "." ++ attr)
  /\ (forall (func : expr) (args args' : list expr)
        (keywords keywords' : list (option string * expr)),
        get_name (Call func args keywords) = get_name func
        /\ get_name (Call func args keywords) = get_name (Call func args' keywords'))
  /\ (forall value : constant, get_name (Constant value) = str_constant value)
  /\ (forall (lhs rhs : expr) (op : operator),
        get_name (BinOp lhs op rhs)
        = get_name lhs ++ " " ++ get_operator op ++ " " ++ get_name rhs)
  /\ (get_operator Add = "+" /\ get_operator Sub = "-"
      /\ get_operator Mult = "*" /\ get_operator Div = "/")
  /\ (forall op : operator,
        op <> Add -> op <> Sub -> op <> Mult -> op <> Div -> get_operator op = "?")
  /\ (forall (kind : string) (parts : list expr),
        get_name (OtherExpr kind parts) = "...")
  /\ get_name_opt None = "..."
  /\ str_constant CNone = "None"
  /\ (forall b : bool, str_constant (CBool b) = if b then "True" else "False")
  /\ str_constant CEllipsis = "Ellipsis"
  /\ (forall s : string, str_constant (CStr s) = s)
  /\ (forall text : string, str_constant (CText text) = text)
  /\ (forall n : Z,
        NilZero.int_of_string (str_constant (CInt n)) = Some (Z.to_int n)
        /\ Z.of_int (Z.to_int n) = n)
  /\ (forall n : Z,
        n < 0 -> str_constant (CInt n) = "-" ++ str_constant (CInt (- n)))
  /\ str_constant (CInt 0) = "0"
  /\ str_constant (CInt 42) = "42".
Proof.
  repeat split; try reflexivity.
  - intros op H1 H2 H3 H4. destruct op; try reflexivity; contradiction.
  - cbn [str_constant]. unfold PyStr.of_int. apply NilZero.isi.
    + destruct n as [|p|p]; cbn; try discriminate.
      intros [= H]. now apply (DecimalPos.Unsigned.to_uint_nonnil p).
    + destruct n as [|p|p]; cbn; try discriminate.
      intros [= H]. now apply (DecimalPos.Unsigned.to_uint_nonnil p).
  - apply DecimalZ.of_to.
  - intros n H. destruct n as [|p|p]; try lia. reflexivity.
Qed.

(** C7, as stated, fails on a file of one function and one class whose
    function body is only a docstring: the file parses as it is, with
    one top-level function definition, one top-level class definition
    and no nesting, but the reducer drops the docstring, the reduced
    text has no block after the [def] line, and the result is one
    [Error in parsing code] string, not two lines.  It fails too on an
    [async def] beside a class: the async definition gets no line. *)
Lemma docstring_only_body_gives_a_parse_error :
  Samples.docstring_only_parse Samples.docstring_only_text
  = Py.Ok Samples.docstring_only_tree
  /\ no_nesting Samples.docstring_only_tree = true
  /\ List.length (filter is_FunctionDef (mod_body Samples.docstring_only_tree)) = 1%nat
  /\ List.length (filter is_ClassDef (mod_body Samples.docstring_only_tree)) = 1%nat
  /\ tokenize_tokens Samples.docstring_only_stream
     = "def f():" ++ PyStr.nl ++ PyStr.repeat " " 9 ++ PyStr.nl
       ++ "class Foo:" ++ PyStr.nl ++ "    pass" ++ PyStr.nl
  /\ summarize_file Samples.docstring_only_read Samples.docstring_only_tokens
       Samples.docstring_only_parse Samples.no_fault "doc.py"
     = Py.Ok
         "Error in parsing code: expected an indented block after function definition on line 1 (<unknown>, line 3)"
  /\ no_nesting Samples.async_and_class = true
  /\ visit_Module Samples.async_and_class = [ "Class: Foo" ].
Proof.
  repeat split; reflexivity.
Qed.

(** C7, amended.  Take a file whose reduced text parses, and whose tree
    the visitor gets through, the tree holding [N] top-level function
    definitions ([FunctionDef] nodes: an [async def] is not one) and [M]
    top-level class definitions, with no nesting.  The report holds one
    line (one entry of the emitted list, which the report joins with
    newlines) for each of them, [N + M] in all, in the order of their
    declaration, and [summarize_file] returns that report. *)
Theorem flat_file_has_one_line_per_definition :
  forall tree : module,
    no_nesting tree = true ->
    visit_Module tree = flat_map own_entry (mod_body tree)
    /\ List.length (visit_Module tree)
       = (List.length (filter is_FunctionDef (mod_body tree))
          + List.length (filter is_ClassDef (mod_body tree)))%nat
    /\ get_summary (visit_Module tree)
       = PyStr.join PyStr.nl (flat_map own_entry (mod_body tree))
    /\ (forall (read_text : string -> Py.result string)
          (generate_tokens : string -> Py.result (list token))
          (ast_parse : string -> Py.result module)
          (visit_fault : module -> option Py.exn)
          (file_path code : string) (tokens : list token),
          read_text file_path = Py.Ok code ->
          generate_tokens code = Py.Ok tokens ->
          ast_parse (tokenize_tokens tokens) = Py.Ok tree ->
          visit_fault tree = None ->
          summarize_file read_text generate_tokens ast_parse visit_fault file_path
          = Py.Ok (PyStr.join PyStr.nl (flat_map own_entry (mod_body tree)))).
Proof.
  intros [body] H. unfold no_nesting in H. cbn [mod_body] in *.
  assert (E : visit_Module (Module_ body) = flat_map own_entry body).
  { unfold visit_Module. cbn [mod_body].
    rewrite VisitorFacts.visit_each_preorder. cbn [app].
    now apply VisitorFacts.flat_entries. }
  split; [exact E | split; [| split; [now rewrite E |]]].
  - rewrite E, VisitorFacts.entries_count. apply VisitorFacts.def_count.
  - intros read_text generate_tokens ast_parse visit_fault file_path code tokens
      Hread Htok Hparse Hfault.
    unfold summarize_file, compress_code, tokenize_code, summarize_code_with_ast,
      run_visitor, Py.try_except, Py.bind.
    rewrite Hread, Htok, Hparse, Hfault. unfold get_summary. now rewrite E.
Qed.

(** On the file [flat.py]: one function, one class and one assignment. *)
Lemma flat_file_sample_has_two_lines :
  no_nesting Samples.flat_module = true
  /\ visit_Module Samples.flat_module
     = [ "Function: add(a, b)" ++ PyStr.nl ++ "  Body: return a + b"; "Class: Foo" ]
  /\ List.length (visit_Module Samples.flat_module) = (1 + 1)%nat
  /\ tokenize_tokens Samples.flat_stream = Samples.flat_text
  /\ summarize_file Samples.flat_read Samples.flat_tokens Samples.flat_parse
       Samples.no_fault "flat.py"
     = Py.Ok ("Function: add(a, b)" ++ PyStr.nl ++ "  Body: return a + b"
              ++ PyStr.nl ++ "Class: Foo").
Proof.
  split; [reflexivity |].
  destruct (flat_file_has_one_line_per_definition Samples.flat_module eq_refl)
    as (E & L & _ & P).
  split; [rewrite E; reflexivity |]. split; [exact L |].
  split; [reflexivity |].
  rewrite (P Samples.flat_read Samples.flat_tokens Samples.flat_parse
             Samples.no_fault "flat.py" Samples.flat_text Samples.flat_stream);
    reflexivity.
Defined.

(** C10.  An [async def] gets no entry of its own: the visitor has a
    method for [FunctionDef] and for [ClassDef] only, so the node goes
    to [generic_visit], which visits the body; the definitions nested in
    it give their entries. *)
Theorem async_function_has_no_entry :
  forall (name : string) (params : arguments) (body : list stmt)
    (decorator_list : list expr) (summary : list string),
    visit (AsyncFunctionDef name params body decorator_list) summary
    = generic_visit (AsyncFunctionDef name params body decorator_list) summary
    /\ visit (AsyncFunctionDef name params body decorator_list) summary
       = visit_each body summary
    /\ visit (AsyncFunctionDef name params body decorator_list) summary
       = (summary ++ flat_map own_entry (preorder_forest body))%list
    /\ (forall (node : stmt) (acc : list string),
          is_def node = false -> visit node acc = visit_each (children node) acc)
    /\ visit Samples.async_with_inner [] = [ "Function: parse(raw)" ].
Proof.
  intros name params body decorator_list summary.
  split; [| split; [| split; [| split]]].
  - apply VisitorFacts.visit_dispatch.
  - now rewrite VisitorFacts.visit_dispatch.
  - rewrite VisitorFacts.visit_preorder, VisitorFacts.preorder_children.
    reflexivity.
  - intros node acc Hn. rewrite VisitorFacts.visit_children.
    destruct node; try discriminate; cbn [own_entry]; now rewrite app_nil_r.
  - reflexivity.
Qed.

(** ** The public operation: the claims *)

Import Py.

(** C1, as stated, fails on a file holding the line [x = = 1]: the text
    tokenizes, the parser raises a [SyntaxError], and the handler of
    [summarize_code_with_ast] turns it into a string that starts with
    [Error in parsing code:], not with [Error summarizing]. *)
Lemma parse_error_is_reported_in_another_shape :
  summarize_file Samples.twice_read Samples.twice_tokens Samples.twice_parse
    Samples.no_fault "twice.py"
  = Ok "Error in parsing code: invalid syntax (<unknown>, line 1)"
  /\ ~ (exists message : string,
          summarize_file Samples.twice_read Samples.twice_tokens
            Samples.twice_parse Samples.no_fault "twice.py"
          = Ok ("Error summarizing twice.py: " ++ message)).
Proof.
  split; [reflexivity |].
  intros [message H]. vm_compute in H. discriminate H.
Qed.

(** C1, amended.  Whatever the host does, [summarize_file] returns a
    string and raises nothing.  An exception raised while the file is
    read, tokenized, parsed or summarized gives
    [Error summarizing <path>: <message>], with one exception: a
    [SyntaxError] (or a subclass) raised inside the [try] of
    [summarize_code_with_ast], by the parser or during the visit, is
    caught there and gives [Error in parsing code: <message>].  With no
    exception the result is the report.  On [def f(:] the tokenizer
    fails and the result is one error string. *)
Theorem summarize_file_returns_a_string :
  (forall (read_text : string -> result string)
     (generate_tokens : string -> result (list token))
     (ast_parse : string -> result module)
     (visit_fault : module -> option exn)
     (file_path : string),
     exists s : string,
       summarize_file read_text generate_tokens ast_parse visit_fault file_path
       = Ok s
       /\ (forall e : exn,
             read_text file_path = Raised e ->
             s = "Error summarizing " ++ file_path ++ ": " ++ str_of e)
       /\ (forall (code : string) (e : exn),
             read_text file_path = Ok code ->
             generate_tokens code = Raised e ->
             s = "Error summarizing " ++ file_path ++ ": " ++ str_of e)
       /\ (forall (code : string) (tokens : list token) (e : exn),
             read_text file_path = Ok code ->
             generate_tokens code = Ok tokens ->
             ast_parse (tokenize_tokens tokens) = Raised e ->
             s = if isinstance_SyntaxError (class_of e)
                 then "Error in parsing code: " ++ str_of e
                 else "Error summarizing " ++ file_path ++ ": " ++ str_of e)
       /\ (forall (code : string) (tokens : list token) (tree : module) (e : exn),
             read_text file_path = Ok code ->
             generate_tokens code = Ok tokens ->
             ast_parse (tokenize_tokens tokens) = Ok tree ->
             visit_fault tree = Some e ->
             s = if isinstance_SyntaxError (class_of e)
                 then "Error in parsing code: " ++ str_of e
                 else "Error summarizing " ++ file_path ++ ": " ++ str_of e)
       /\ (forall (code : string) (tokens : list token) (tree : module),
             read_text file_path = Ok code ->
             generate_tokens code = Ok tokens ->
             ast_parse (tokenize_tokens tokens) = Ok tree ->
             visit_fault tree = None ->
             s = get_summary (visit_Module tree)))
  /\ summarize_file Samples.unclosed_read Samples.unclosed_tokens
       Samples.unclosed_parse Samples.no_fault "bad.py"
     = Ok "Error summarizing bad.py: ('EOF in multi-line statement', (2, 0))".
Proof.
  split; [| reflexivity].
  intros read_text generate_tokens ast_parse visit_fault file_path.
  unfold summarize_file, compress_code, tokenize_code, summarize_code_with_ast,
    run_visitor, try_except, bind, isinstance_Exception.
  destruct (read_text file_path) as [code | e1] eqn:Hread;
    [destruct (generate_tokens code) as [tokens | e2] eqn:Htok;
     [destruct (ast_parse (tokenize_tokens tokens)) as [tree | e3] eqn:Hparse;
      [destruct (visit_fault tree) as [e4 |] eqn:Hfault;
       [destruct (isinstance_SyntaxError (class_of e4)) eqn:Hclass |]
      | destruct (isinstance_SyntaxError (class_of e3)) eqn:Hclass] |] |];
    (eexists; split; [reflexivity |]);
    repeat split; intros; same_run;
    repeat match goal with
    | H1 : visit_fault ?t = _, H2 : visit_fault ?t = _ |- _ =>
        rewrite H1 in H2; first [discriminate H2 | injection H2 as <-]
    end;
    rewrite ?Hclass; reflexivity.
Qed.

(** * Further properties *)

(** ** The two reducers and what the output is made of *)

Module ReducerMore.

Import Reducer Layout ReducerFacts LayoutFacts.

Lemma sibling_loop_body (st : state) (t : token) :
  Sibling.loop_body st t = loop_body st t.
Proof.
  unfold Sibling.loop_body, loop_body, is_comment, is_docstring.
  destruct (toktype_beq (tok_type t) COMMENT); [reflexivity |].
  destruct (toktype_beq (tok_type t) STRING);
    destruct (toktype_beq (prev_toktype st) INDENT); reflexivity.
Qed.

Lemma sibling_run (toks : list token) (st : state) :
  fold_left Sibling.loop_body toks st = run st toks.
Proof.
  revert st. induction toks as [|t toks IH]; intros st; [reflexivity |].
  cbn [fold_left]. rewrite sibling_loop_body, IH. reflexivity.
Qed.

Lemma run_without_comments (toks : list token) (st : state) :
  run st toks = run st (filter (fun t => negb (is_comment t)) toks).
Proof.
  revert st. induction toks as [|t toks IH]; intros st; [reflexivity |].
  cbn [filter]. destruct (is_comment t) eqn:E; cbn [negb].
  - rewrite run_cons, loop_body_skip by (unfold skips; now rewrite E).
    apply IH.
  - rewrite !run_cons. apply IH.
Qed.

Lemma join_gap_blank (st : state) (t : token) :
  blank (PyStr.join "" (gap st t)) = true.
Proof.
  unfold gap. destruct (scol t >? _); [| reflexivity].
  cbn. unfold PyStr.mul. apply repeat_space_blank.
Qed.

Lemma run_weave (toks : list token) :
  forall st : state,
    exists gaps : list string,
      List.length gaps
      = List.length (select (map negb (skipped (prev_toktype st) toks)) toks)
      /\ forallb blank gaps = true
      /\ PyStr.join "" (output (run st toks))
         = PyStr.join "" (output st)
           ++ weave gaps
                (map tok_string
                   (select (map negb (skipped (prev_toktype st) toks)) toks)).
Proof.
  induction toks as [|t toks IH]; intros st.
  - exists []. cbn. now rewrite str_app_nil_r.
  - rewrite run_cons. cbn [skipped]. fold (skips st t).
    destruct (skips st t) eqn:E; cbn [map negb select].
    + rewrite (loop_body_skip _ _ E). apply IH.
    + destruct (IH (loop_body st t)) as (gaps & Hlen & Hblank & Hout).
      rewrite (loop_body_keep _ _ E) in Hlen, Hout.
      cbn [prev_toktype output] in Hlen, Hout.
      exists (PyStr.join "" (gap st t) :: gaps).
      split; [cbn [List.length]; now rewrite Hlen |].
      split; [cbn [forallb]; now rewrite join_gap_blank, Hblank |].
      rewrite (loop_body_keep _ _ E), Hout. cbn [map weave].
      rewrite !join_nil_app.
      replace (PyStr.join "" [tok_string t]) with (tok_string t) by reflexivity.
      now rewrite !str_app_assoc.
Qed.

End ReducerMore.

(** X1.  [remove_comments_and_docstrings] and [tokenize_code] are the
    same function: on every token stream the two loops return the same
    text, and with the same tokenizer the two functions return the same
    result or raise the same exception. *)
Theorem the_two_reducers_agree :
  (forall toks : list token, Sibling.remove_tokens toks = tokenize_tokens toks)
  /\ (forall (generate_tokens : string -> Py.result (list token)) (code : string),
        remove_comments_and_docstrings generate_tokens code
        = tokenize_code generate_tokens code).
Proof.
  assert (H : forall toks, Sibling.remove_tokens toks = tokenize_tokens toks).
  { intros toks. unfold Sibling.remove_tokens, tokenize_tokens.
    now rewrite ReducerMore.sibling_run. }
  split; [exact H |].
  intros generate_tokens code.
  unfold remove_comments_and_docstrings, tokenize_code, Py.bind.
  destruct (generate_tokens code); [now rewrite H | reflexivity].
Qed.

(** X2.  Comment tokens have no effect at all on the output: the
    reducer gives the same text for a stream and for the stream with
    every comment token taken out beforehand, however many comments
    there are and wherever they stand. *)
Theorem comments_leave_no_trace :
  forall toks : list token,
    tokenize_tokens toks
    = tokenize_tokens (filter (fun t => negb (is_comment t)) toks).
Proof.
  intros toks. unfold tokenize_tokens.
  now rewrite (ReducerMore.run_without_comments toks initial).
Qed.

(** X3.  The output is woven from the texts of the kept tokens, whole
    and in stream order, each preceded by a run of zero or more spaces:
    the reducer emits no other character, and it never cuts or reorders
    a token, whatever the coordinates of the tokens are. *)
Theorem output_is_kept_texts_and_spaces :
  forall toks : list token,
    exists gaps : list string,
      List.length gaps = List.length (kept_tokens toks)
      /\ forallb blank gaps = true
      /\ tokenize_tokens toks = weave gaps (map tok_string (kept_tokens toks)).
Proof.
  intros toks.
  destruct (ReducerMore.run_weave toks initial) as (gaps & Hlen & Hblank & Hout).
  exists gaps. unfold tokenize_tokens, kept_tokens.
  repeat split; assumption.
Qed.

(** ** Where exceptions stop *)

Module PipelineFacts.

Import Py.

Section Hosts.

Variable ast_parse : string -> result module.
Variable visit_fault : module -> option exn.

(** What is raised inside the [try] of [summarize_code_with_ast]: by
    the parser, or by the interpreter during the visit. *)
Lemma raised_inside_cases (code : string) :
  (exists tree : module, ast_parse code = Ok tree /\ visit_fault tree = None
     /\ summarize_code_with_ast ast_parse visit_fault code
        = Ok (get_summary (visit_Module tree)))
  \/ (exists e : exn,
        raised_inside ast_parse visit_fault code e
        /\ (forall e' : exn, raised_inside ast_parse visit_fault code e' -> e' = e)
        /\ summarize_code_with_ast ast_parse visit_fault code
           = if isinstance_SyntaxError (class_of e)
             then Ok ("Error in parsing code: " ++ str_of e)
             else Raised e).
Proof.
  unfold summarize_code_with_ast, run_visitor, raised_inside, try_except, bind.
  destruct (ast_parse code) as [tree | e] eqn:Hp.
  - destruct (visit_fault tree) as [e |] eqn:Hf.
    + right. exists e. split; [right; now exists tree |]. split.
      * intros e' [H | (tree' & [= <-] & H)]; [discriminate H | congruence].
      * destruct (isinstance_SyntaxError (class_of e)); reflexivity.
    + left. exists tree. now repeat split.
  - right. exists e. split; [now left |]. split.
    + intros e' [[= ->] | (tree' & H & _)]; [reflexivity | discriminate H].
    + destruct (isinstance_SyntaxError (class_of e)); reflexivity.
Qed.

Lemma summarize_code_with_ast_raises (code : string) (e : exn) :
  summarize_code_with_ast ast_parse visit_fault code = Raised e
  <-> raised_inside ast_parse visit_fault code e
      /\ isinstance_SyntaxError (class_of e) = false.
Proof.
  destruct (raised_inside_cases code)
    as [(tree & Hp & Hf & Hrun) | (e0 & Hin & Huniq & Hrun)]; rewrite Hrun.
  - split; [discriminate |].
    intros [[H | (tree' & H & H')] _]; unfold raised_inside in *; congruence.
  - destruct (isinstance_SyntaxError (class_of e0)) eqn:E.
    + split; [discriminate |].
      intros [H H']. apply Huniq in H. subst e. congruence.
    + split.
      * intros [= ->]. now split.
      * intros [H _]. apply Huniq in H. now subst e.
Qed.

End Hosts.

End PipelineFacts.

(** X4.  [summarize_code_with_ast] raises exactly the exceptions raised
    inside its [try], by the parser or during the visit, that are not a
    [SyntaxError] or a subclass of it; a [SyntaxError],
    [IndentationError] or [TabError] raised there never leaves it, and
    becomes the string [Error in parsing code: <message>]. *)
Theorem only_syntax_errors_stop_at_summarize_code_with_ast :
  forall (ast_parse : string -> Py.result module)
    (visit_fault : module -> option Py.exn) (code : string) (e : Py.exn),
    (summarize_code_with_ast ast_parse visit_fault code = Py.Raised e
     <-> raised_inside ast_parse visit_fault code e
         /\ Py.isinstance_SyntaxError (Py.class_of e) = false)
    /\ (raised_inside ast_parse visit_fault code e ->
        Py.isinstance_SyntaxError (Py.class_of e) = true ->
        summarize_code_with_ast ast_parse visit_fault code
        = Py.Ok ("Error in parsing code: " ++ Py.str_of e)).
Proof.
  intros ast_parse visit_fault code e.
  split; [apply PipelineFacts.summarize_code_with_ast_raises |].
  intros Hin Hclass.
  destruct (PipelineFacts.raised_inside_cases ast_parse visit_fault code)
    as [(tree & Hp & Hf & _) | (e0 & _ & Huniq & Hrun)].
  - destruct Hin as [H | (tree' & H & H')]; congruence.
  - apply Huniq in Hin. subst e0. now rewrite Hrun, Hclass.
Qed.

(** X5.  [compress_code] has no handler of its own: it raises when the
    tokenizer raises (the parser is then not reached, so even a
    [SyntaxError] of the tokenizer goes through), and when the parser,
    given the reduced text, or the visit of its tree raises outside the
    [SyntaxError] family; in every other case it returns a string. *)
Theorem compress_code_raises_exactly_when :
  forall (generate_tokens : string -> Py.result (list token))
    (ast_parse : string -> Py.result module)
    (visit_fault : module -> option Py.exn) (code : string) (e : Py.exn),
    compress_code generate_tokens ast_parse visit_fault code = Py.Raised e
    <-> generate_tokens code = Py.Raised e
        \/ (exists tokens : list token,
              generate_tokens code = Py.Ok tokens
              /\ raised_inside ast_parse visit_fault (tokenize_tokens tokens) e
              /\ Py.isinstance_SyntaxError (Py.class_of e) = false).
Proof.
  intros generate_tokens ast_parse visit_fault code e.
  unfold compress_code, tokenize_code, Py.bind.
  destruct (generate_tokens code) as [tokens | e1].
  - rewrite PipelineFacts.summarize_code_with_ast_raises. split.
    + intros [H1 H2]. right. now exists tokens.
    + intros [H | (tokens' & [= <-] & H1 & H2)]; [discriminate H | now split].
  - split.
    + intros [= ->]. now left.
    + intros [[= ->] | (tokens & H & _)]; [reflexivity | discriminate H].
Qed.

(** ** The report *)

Module ReportFacts.

Import Ast Summarizer.

Lemma own_entry_labelled (node : stmt) :
  Forall (fun entry =>
            exists rest : string,
              entry = "Function: " ++ rest \/ entry = "Class: " ++ rest)
    (own_entry node).
Proof.
  destruct node as [n p b d | | n bs b d | | | | | | | | |];
    cbn [own_entry]; try constructor; try constructor.
  - unfold func_summary. destruct (PyStr.truthy _); eexists; left;
      rewrite ?str_app_assoc; reflexivity.
  - eexists. right. reflexivity.
Qed.

Lemma entries_labelled (nodes : list stmt) :
  Forall (fun entry =>
            exists rest : string,
              entry = "Function: " ++ rest \/ entry = "Class: " ++ rest)
    (flat_map own_entry nodes).
Proof.
  induction nodes as [|n rest IH]; [constructor |].
  cbn [flat_map]. apply Forall_app. split; [apply own_entry_labelled | exact IH].
Qed.

Lemma dotted_fold (attrs : list string) :
  forall e : expr,
    get_name (fold_left Attribute attrs e)
    = fold_left (fun acc attr => acc ++ "." ++ attr) attrs (get_name e).
Proof.
  induction attrs as [|a attrs IH]; intros e; [reflexivity |].
  cbn [fold_left]. now rewrite IH.
Qed.

Lemma dotted_join (attrs : list string) :
  forall base : string,
    fold_left (fun acc attr => acc ++ "." ++ attr) attrs base
    = PyStr.join "." (base :: attrs).
Proof.
  induction attrs as [|a attrs IH]; intros base; [reflexivity |].
  cbn [fold_left]. rewrite IH. unfold PyStr.join.
  destruct attrs as [|c attrs]; cbn [String.concat]; [reflexivity |].
  now rewrite !str_app_assoc.
Qed.

Lemma join_app (sep : string) (xs ys : list string) :
  PyStr.join sep (xs ++ ys)
  = match xs, ys with
    | [], _ => PyStr.join sep ys
    | _, [] => PyStr.join sep xs
    | _ :: _, _ :: _ => PyStr.join sep xs ++ sep ++ PyStr.join sep ys
    end.
Proof.
  unfold PyStr.join.
  induction xs as [|x xs IH]; [reflexivity |].
  destruct ys as [|y ys]; [now rewrite app_nil_r |].
  destruct xs as [|x' xs]; [reflexivity |].
  cbn [app String.concat] in *. rewrite IH. now rewrite !str_app_assoc.
Qed.

End ReportFacts.

(** X6.  The report of a file is the empty string exactly when its tree
    holds no [FunctionDef] and no [ClassDef] at any depth: a script
    without definitions is summarized as nothing, and any definition
    makes the report non-empty. *)
Theorem report_is_empty_iff_no_definition :
  forall tree : module,
    get_summary (visit_Module tree) = ""
    <-> filter is_def (preorder_forest (mod_body tree)) = [].
Proof.
  intros tree. unfold visit_Module, get_summary.
  rewrite VisitorFacts.visit_each_preorder. cbn [app].
  pose proof (VisitorFacts.entries_count (preorder_forest (mod_body tree))) as Hlen.
  pose proof (ReportFacts.entries_labelled (preorder_forest (mod_body tree))) as Hlab.
  destruct (flat_map own_entry (preorder_forest (mod_body tree))) as [|entry rest].
  - split; [| reflexivity]. intros _.
    destruct (filter is_def _); [reflexivity | discriminate].
  - split; intros H.
    + exfalso. revert H. apply DigestFacts.join_nonempty.
      inversion Hlab as [|? ? (tail & [-> | ->]) _]; discriminate.
    + rewrite H in Hlen. discriminate.
Qed.

(** X7.  Every entry of a report starts with [Function: ] or with
    [Class: ], whatever the names, parameters and bodies are. *)
Theorem every_entry_is_labelled :
  forall tree : module,
    Forall (fun entry =>
              exists rest : string,
                entry = "Function: " ++ rest \/ entry = "Class: " ++ rest)
      (visit_Module tree).
Proof.
  intros tree. unfold visit_Module.
  rewrite VisitorFacts.visit_each_preorder. cbn [app].
  apply ReportFacts.entries_labelled.
Qed.

(** X8.  A chain of attribute accesses on an identifier renders as the
    names joined by dots, [a.b.c] for [a.b.c], at any length. *)
Theorem attribute_chain_renders_dotted :
  forall (base : string) (attrs : list string),
    get_name (fold_left Attribute attrs (Name base))
    = PyStr.join "." (base :: attrs).
Proof.
  intros base attrs.
  now rewrite ReportFacts.dotted_fold, ReportFacts.dotted_join.
Qed.

(** X9.  The digest of two statement lists put end to end is the two
    digests joined by [" | "], and just the other digest when one of
    them is empty: no separator is left dangling by statements that
    render nothing. *)
Theorem digest_of_concatenated_bodies :
  forall first second : list stmt,
    summarize_function_body (first ++ second)
    = if String.eqb (summarize_function_body first) ""
      then summarize_function_body second
      else if String.eqb (summarize_function_body second) ""
           then summarize_function_body first
           else summarize_function_body first ++ " | "
                ++ summarize_function_body second.
Proof.
  intros first second.
  pose proof (DigestFacts.digest_empty_iff first) as H1.
  pose proof (DigestFacts.digest_empty_iff second) as H2.
  pose proof (DigestFacts.important_lines_length first) as L1.
  pose proof (DigestFacts.important_lines_length second) as L2.
  unfold summarize_function_body in *.
  rewrite DigestFacts.important_lines_app, ReportFacts.join_app.
  destruct (important_lines_of first) as [|f fs].
  - reflexivity.
  - destruct (String.eqb_spec (PyStr.join " | " (f :: fs)) "") as [E | _].
    + apply H1 in E. rewrite E in L1. discriminate.
    + destruct (important_lines_of second) as [|g gs]; [reflexivity |].
      destruct (String.eqb_spec (PyStr.join " | " (g :: gs)) "") as [E | _];
        [| reflexivity].
      apply H2 in E. rewrite E in L2. discriminate.
Qed.

(** X10.  Visiting never touches the entries already collected and adds
    the same entries whatever they are; so the entries of a module whose
    body is two statement lists put end to end are the entries of the
    first followed by the entries of the second. *)
Theorem visiting_only_appends :
  (forall (node : stmt) (summary : list string),
     visit node summary = (summary ++ visit node [])%list)
  /\ (forall first second : list stmt,
        visit_Module (Module_ (first ++ second))
        = (visit_Module (Module_ first) ++ visit_Module (Module_ second))%list).
Proof.
  split.
  - intros node summary. now rewrite !VisitorFacts.visit_preorder.
  - intros first second. unfold visit_Module. cbn [mod_body].
    rewrite !VisitorFacts.visit_each_preorder. cbn [app].
    unfold preorder_forest. now rewrite !flat_map_app.
Qed.

(** ** The directory walk *)

Module BatchFacts.

Import Py Batch.

Lemma endswith_unfold (s suffix : string) :
  endswith s suffix
  = if String.eqb s suffix then true
    else match s with
         | EmptyString => false
         | String _ s' => endswith s' suffix
         end.
Proof. destruct s; reflexivity. Qed.

Lemma endswith_iff (s suffix : string) :
  endswith s suffix = true <-> exists stem : string, s = stem ++ suffix.
Proof.
  split.
  - induction s as [|c s IH]; rewrite endswith_unfold.
    + destruct (String.eqb_spec "" suffix) as [<- | Hne]; intros H;
        [now exists "" | discriminate].
    + destruct (String.eqb_spec (String c s) suffix) as [<- | Hne]; intros H;
        [now exists "" |].
      destruct (IH H) as [stem ->]. now exists (String c stem).
  - intros [stem ->]. induction stem as [|c stem IH].
    + rewrite endswith_unfold. cbn [append]. now rewrite String.eqb_refl.
    + rewrite endswith_unfold. cbn [append].
      destruct (String.eqb _ suffix); [reflexivity | exact IH].
Qed.

Section Hosts.

Variable read_text : string -> result string.
Variable generate_tokens : string -> result (list token).
Variable ast_parse : string -> result Ast.module.
Variable visit_fault : Ast.module -> option exn.
Variable path_of : string -> string -> string.
Variable os_path_join : string -> string -> string.

(** [summarize_file] returns, whatever the host does. *)
Lemma summarize_file_ok (file_path : string) :
  exists s : string,
    summarize_file read_text generate_tokens ast_parse visit_fault file_path = Ok s.
Proof.
  unfold summarize_file, try_except, isinstance_Exception.
  destruct (bind _ _); eexists; reflexivity.
Qed.

Lemma extend_nil (st : state) : extend st [] [] = st.
Proof. destruct st. unfold extend. cbn. now rewrite !app_nil_r. Qed.

Lemma summarized_length (paths summaries : list string) :
  summarized read_text generate_tokens ast_parse visit_fault paths summaries ->
  List.length paths = List.length summaries.
Proof. intros H. induction H; cbn; congruence. Qed.

Lemma sections_app (p1 p2 s1 s2 : list string) :
  List.length p1 = List.length s1 ->
  sections (p1 ++ p2) (s1 ++ s2) = (sections p1 s1 ++ sections p2 s2)%list.
Proof.
  revert s1. induction p1 as [|p p1 IH]; intros [|s s1] H; try discriminate.
  - reflexivity.
  - unfold sections in *. cbn. f_equal. apply IH. now injection H.
Qed.

Lemma extend_extend (st : state) (p1 p2 s1 s2 : list string) :
  List.length p1 = List.length s1 ->
  extend (extend st p1 s1) p2 s2 = extend st (p1 ++ p2) (s1 ++ s2).
Proof.
  intros H. unfold extend. cbn [project_summary echoed].
  rewrite (sections_app _ _ _ _ H). unfold progress.
  now rewrite map_app, !app_assoc.
Qed.

Lemma files_loop (root : string) (files : list string) :
  forall st : state,
    exists summaries : list string,
      summarized read_text generate_tokens ast_parse visit_fault
        (map (path_of root) (filter is_supported files)) summaries
      /\ for_each (file_step read_text generate_tokens ast_parse visit_fault path_of root)
           files st
         = Ok (extend st (map (path_of root) (filter is_supported files)) summaries).
Proof.
  induction files as [|file files IH]; intros st.
  - exists []. split; [constructor | now rewrite extend_nil].
  - cbn [for_each filter]. unfold file_step at 1.
    destruct (is_supported file) eqn:E.
    + destruct (summarize_file_ok (path_of root file)) as [s Hs].
      rewrite Hs. cbn [bind].
      destruct (IH {| project_summary :=
                        append (project_summary st) (section_of (path_of root file) s);
                      echoed := append (echoed st) ("Summarizing " ++ path_of root file) |})
        as (summaries & Hall & Hrun).
      exists (s :: summaries). split; [now constructor |].
      rewrite Hrun. f_equal.
      change {| project_summary := append (project_summary st)
                                     (section_of (path_of root file) s);
                echoed := append (echoed st) ("Summarizing " ++ path_of root file) |}
        with (extend st [path_of root file] [s]).
      now rewrite extend_extend.
    + cbn [bind]. apply IH.
Qed.

Lemma tree_dirs_ind (P : tree -> Prop)
  (step : forall (name : string) (dirs : list tree) (files : list string),
      Forall P dirs -> P (Dir name dirs files)) :
  forall t : tree, P t.
Proof.
  fix IH 1. intros [name dirs files]. apply step.
  induction dirs as [|d dirs IHd]; [apply Forall_nil |].
  apply Forall_cons; [apply IH | exact IHd].
Qed.

Lemma nothing_wanted_below_excluded (t : tree) :
  forall root : string, filter wanted (listing os_path_join true root t) = [].
Proof.
  induction t as [name dirs files IH] using tree_dirs_ind. intros root.
  cbn [listing]. rewrite filter_app.
  assert (H1 : filter wanted (map (fun file => (true, (root, file))) files) = []).
  { induction files as [|f files IHf]; [reflexivity | exact IHf]. }
  rewrite H1. cbn [app].
  induction IH as [|d dirs Hd _ IHdirs]; [reflexivity |].
  cbn [flat_map]. rewrite filter_app, IHdirs, app_nil_r. cbn [orb]. apply Hd.
Qed.

Lemma wanted_files (root : string) (files : list string) :
  map (fun e => path_of (fst (snd e)) (snd (snd e)))
    (filter wanted (map (fun file => (false, (root, file))) files))
  = map (path_of root) (filter is_supported files).
Proof.
  induction files as [|f files IH]; [reflexivity |].
  cbn [map filter]. unfold wanted at 1. cbn [fst snd negb andb].
  destruct (is_supported f); cbn [map]; now rewrite IH.
Qed.

(** The paths wanted below the directories [dirs] of [root]. *)
Lemma descend_eligible (root : string) (dirs : list tree) :
  Forall
    (fun t =>
       forall (root : string) (st : state),
         exists summaries : list string,
           summarized read_text generate_tokens ast_parse visit_fault
             (eligible_paths path_of os_path_join root t) summaries
           /\ walk read_text generate_tokens ast_parse visit_fault path_of os_path_join root t st
              = Ok (extend st (eligible_paths path_of os_path_join root t) summaries))
    dirs ->
  forall acc : state,
    exists summaries : list string,
      summarized read_text generate_tokens ast_parse visit_fault
        (map (fun e => path_of (fst (snd e)) (snd (snd e)))
           (filter wanted
              (flat_map
                 (fun d =>
                    listing os_path_join
                      (false || str_in (dir_name d) EXCLUDED_DIRS)
                      (os_path_join root (dir_name d)) d)
                 dirs)))
        summaries
      /\ (fix descend (ds : list tree) (st : state) {struct ds} : result state :=
            match ds with
            | [] => Ok st
            | d :: rest =>
                if str_in (dir_name d) EXCLUDED_DIRS then descend rest st
                else
                  st' <- walk read_text generate_tokens ast_parse visit_fault path_of
                           os_path_join (os_path_join root (dir_name d)) d st ;;
                  descend rest st'
            end) dirs acc
         = Ok (extend acc
                 (map (fun e => path_of (fst (snd e)) (snd (snd e)))
                    (filter wanted
                       (flat_map
                          (fun d =>
                             listing os_path_join
                               (false || str_in (dir_name d) EXCLUDED_DIRS)
                               (os_path_join root (dir_name d)) d)
                          dirs)))
                 summaries).
Proof.
  intros IH. induction IH as [|d dirs Hd _ IHdirs]; intros acc.
  - exists []. split; [constructor | now rewrite extend_nil].
  - cbn [flat_map]. rewrite filter_app, map_app. cbn [orb].
    destruct (str_in (dir_name d) EXCLUDED_DIRS) eqn:E.
    + rewrite nothing_wanted_below_excluded. cbn [map app]. apply IHdirs.
    + destruct (Hd (os_path_join root (dir_name d)) acc) as (s1 & Hs1 & Hrun1).
      rewrite Hrun1. cbn [bind]. unfold eligible_paths in Hs1 |- *.
      destruct (IHdirs (extend acc
                          (map (fun e => path_of (fst (snd e)) (snd (snd e)))
                             (filter wanted
                                (listing os_path_join false
                                   (os_path_join root (dir_name d)) d)))
                          s1))
        as (s2 & Hs2 & Hrun2).
      exists (s1 ++ s2)%list. split; [now apply Forall2_app |].
      rewrite Hrun2. f_equal. apply extend_extend.
      now apply summarized_length.
Qed.

(** The walk summarizes the eligible files, in the order of the listing. *)
Lemma walk_eligible (t : tree) :
  forall (root : string) (st : state),
    exists summaries : list string,
      summarized read_text generate_tokens ast_parse visit_fault
        (eligible_paths path_of os_path_join root t) summaries
      /\ walk read_text generate_tokens ast_parse visit_fault path_of os_path_join root t st
         = Ok (extend st (eligible_paths path_of os_path_join root t) summaries).
Proof.
  induction t as [name dirs files IH] using tree_dirs_ind. intros root st.
  unfold eligible_paths. cbn [listing walk].
  rewrite filter_app, map_app, wanted_files.
  destruct (files_loop root files st) as (s1 & Hs1 & Hrun1).
  rewrite Hrun1. cbn [bind].
  destruct (descend_eligible root dirs IH
              (extend st (map (path_of root) (filter is_supported files)) s1))
    as (s2 & Hs2 & Hrun2).
  exists (s1 ++ s2)%list. split; [now apply Forall2_app |].
  rewrite Hrun2. f_equal. apply extend_extend.
  now apply summarized_length.
Qed.

End Hosts.

End BatchFacts.

(** X11.  A file is taken for summarizing exactly when its name is some
    stem, possibly empty, followed by one of [.py], [.rs], [.ts], [.js]
    as written: the test looks at the end of the name only. *)
Theorem supported_names_end_with_an_extension :
  forall file : string,
    Batch.is_supported file = true
    <-> exists stem ext : string,
          In ext Batch.supported_extensions /\ file = stem ++ ext.
Proof.
  intros file. unfold Batch.is_supported. rewrite existsb_exists. split.
  - intros (ext & Hin & H). apply BatchFacts.endswith_iff in H as [stem ->].
    now exists stem, ext.
  - intros (stem & ext & Hin & ->). exists ext. split; [exact Hin |].
    apply BatchFacts.endswith_iff. now exists stem.
Qed.

(** X12.  [summarize] raises nothing, whatever the host does with the
    files and with the output path: the loop completes, whether the
    files can be read and parsed or not, the joined sections are handed
    to the write, and the last echoed line tells whether the write
    succeeded or gives its error.  When there is no directory to scan,
    the loop collects nothing and the text handed to the write is
    empty. *)
Theorem summarize_reports_instead_of_raising :
  forall (read_text : string -> Py.result string)
    (generate_tokens : string -> Py.result (list token))
    (ast_parse : string -> Py.result module)
    (visit_fault : module -> option Py.exn)
    (path_of os_path_join : string -> string -> string)
    (scan : string -> option Batch.tree)
    (write_text : string -> string -> Py.result unit)
    (directory output : string),
    exists st : Batch.state,
      Batch.collect read_text generate_tokens ast_parse visit_fault path_of os_path_join scan
        directory
      = Py.Ok st
      /\ Batch.summarize read_text generate_tokens ast_parse visit_fault path_of os_path_join
           scan write_text directory output
         = Py.Ok
             (Batch.echoed st
              ++ [ match write_text output
                           (PyStr.join PyStr.nl (Batch.project_summary st)) with
                   | Py.Ok _ => ("Project summary written to " ++ output)%string
                   | Py.Raised e =>
                       ("Error writing to " ++ output ++ ": " ++ Py.str_of e)%string
                   end ])%list
      /\ (scan directory = None ->
          st = Batch.initial
          /\ PyStr.join PyStr.nl (Batch.project_summary st) = "").
Proof.
  intros read_text generate_tokens ast_parse visit_fault path_of os_path_join scan write_text
    directory output.
  assert (H : exists st,
             Batch.collect read_text generate_tokens ast_parse visit_fault path_of
               os_path_join scan directory = Py.Ok st
             /\ (scan directory = None -> st = Batch.initial)).
  { unfold Batch.collect. destruct (scan directory) as [t |].
    - destruct (BatchFacts.walk_eligible read_text generate_tokens ast_parse visit_fault
                  path_of os_path_join t directory Batch.initial)
        as (summaries & _ & Hrun).
      eexists. split; [exact Hrun | discriminate].
    - exists Batch.initial. now split. }
  destruct H as (st & Hst & Hnone).
  exists st. split; [exact Hst |]. split.
  - unfold Batch.summarize. rewrite Hst.
    unfold Py.bind, Py.try_except, Py.isinstance_Exception, append.
    destruct (write_text output _); reflexivity.
  - intros Hscan. rewrite (Hnone Hscan). now split.
Qed.

(** X13.  The walk gives one section and one progress line, in the same
    order, to each file that has a supported extension and is not below
    a directory named in [EXCLUDED_DIRS], and to no other file: pruning
    while walking selects the files that filtering the full listing
    selects.  Only the directories below the start are tested; the name
    of the directory the walk starts in plays no role. *)
Theorem walk_summarizes_the_wanted_files :
  forall (read_text : string -> Py.result string)
    (generate_tokens : string -> Py.result (list token))
    (ast_parse : string -> Py.result module)
    (visit_fault : module -> option Py.exn)
    (path_of os_path_join : string -> string -> string)
    (directory : string) (t : Batch.tree),
    (exists summaries : list string,
       Batch.summarized read_text generate_tokens ast_parse visit_fault
         (Batch.eligible_paths path_of os_path_join directory t) summaries
       /\ List.length summaries
          = List.length (Batch.eligible_paths path_of os_path_join directory t)
       /\ Batch.walk read_text generate_tokens ast_parse visit_fault path_of os_path_join
            directory t Batch.initial
          = Py.Ok
              {| Batch.project_summary :=
                   Batch.sections
                     (Batch.eligible_paths path_of os_path_join directory t)
                     summaries;
                 Batch.echoed :=
                   Batch.progress
                     (Batch.eligible_paths path_of os_path_join directory t) |})
    /\ (forall (name : string) (dirs : list Batch.tree) (files : list string),
          Batch.walk read_text generate_tokens ast_parse visit_fault path_of os_path_join
            directory (Batch.Dir name dirs files) Batch.initial
          = Batch.walk read_text generate_tokens ast_parse visit_fault path_of os_path_join
              directory (Batch.Dir "node_modules" dirs files) Batch.initial).
Proof.
  intros read_text generate_tokens ast_parse visit_fault path_of os_path_join directory t.
  split; [| reflexivity].
  destruct (BatchFacts.walk_eligible read_text generate_tokens ast_parse visit_fault
              path_of os_path_join t directory Batch.initial)
    as (summaries & Hall & Hrun).
  exists summaries. split; [exact Hall |]. split.
  - symmetry. now apply BatchFacts.summarized_length with (1 := Hall).
  - exact Hrun.
Qed.
